(** * NFT verifier: risk scoring and normalisation, embedded from
    [NFT_Verifier/nft_verifier.py].

    The Python code works on JSON-like dictionaries obtained from a node
    API.  The embedding keeps that shape: a [value] is an untyped JSON
    value, a dictionary is a finite map from strings to values, and every
    operation that Python may reject at run time returns a [result] that
    is either the value or the exception that is raised. *)

From Stdlib Require Import ZArith QArith_base String Ascii List Bool Lia.
From stdpp Require Import gmap strings list fin_maps pretty.

Set Warnings "-register-all".

Open Scope string_scope.
Open Scope Z_scope.
Open Scope list_scope.

(** ** Exceptions and the error monad *)

Inductive exn :=
| TypeError
| AttributeError
| ValueError.

Inductive result (A : Type) :=
| Ok (a : A)
| Raise (e : exn).

Arguments Ok {A} a.
Arguments Raise {A} e.

Definition bind {A B : Type} (m : result A) (k : A -> result B) : result B :=
  match m with
  | Ok a => k a
  | Raise e => Raise e
  end.

Notation "x <- m ;; k" := (bind m (fun x => k))
  (at level 100, m at next level, right associativity).

(** ** JSON-like values

    Numbers are integers; strings are byte strings (code points above 127
    and JSON fractions are outside the model).  A dictionary holds each key
    once, as a Python [dict] does. *)

Inductive value :=
| VNone
| VBool (b : bool)
| VInt (z : Z)
| VStr (s : string)
| VList (l : list value)
| VDict (d : gmap string value).

Abbreviation dict := (gmap string value).

(** [mk_dict] builds a dictionary literal; a later binding of a key
    overrides an earlier one, as in a Python dict display. *)
Definition mk_dict (kvs : list (string * value)) : dict :=
  fold_left (fun d kv => <[kv.1 := kv.2]> d) kvs ∅.

(** ** String primitives *)

Module Str.

(** [needle in hay] on two [str]. *)
Fixpoint contains (needle hay : string) : bool :=
  String.prefix needle hay ||
  match hay with
  | EmptyString => false
  | String _ hay' => contains needle hay'
  end.

Definition lower_ascii (c : ascii) : ascii :=
  let n := N_of_ascii c in
  if ((65 <=? n) && (n <=? 90))%N then ascii_of_N (n + 32) else c.

(** [s.lower()] *)
Fixpoint lower (s : string) : string :=
  match s with
  | EmptyString => EmptyString
  | String c s' => String (lower_ascii c) (lower s')
  end.

Fixpoint rev_acc (s acc : string) : string :=
  match s with
  | EmptyString => acc
  | String c s' => rev_acc s' (String c acc)
  end.

(** Worker of [split]: [skip] counts the characters of a separator
    occurrence still to be dropped, [cur] is the current piece, reversed. *)
Fixpoint split_aux (sep s : string) (skip : nat) (cur : string)
  : list string :=
  match s with
  | EmptyString => [rev_acc cur EmptyString]
  | String c s' =>
      match skip with
      | S k => split_aux sep s' k cur
      | O =>
          if String.prefix sep s
          then rev_acc cur EmptyString
                 :: split_aux sep s' (Nat.pred (String.length sep)) EmptyString
          else split_aux sep s' O (String c cur)
      end
  end.

(** [s.split(sep)] for a non-empty separator: occurrences are found from
    the left and do not overlap. *)
Definition split (sep s : string) : list string :=
  split_aux sep s O EmptyString.

End Str.

(** ** Python operators on values *)

(** Truth value of an object, as tested by [if], [not], [and], [or]. *)
Definition truthy (v : value) : bool :=
  match v with
  | VNone => false
  | VBool b => b
  | VInt z => negb (z =? 0)
  | VStr s => negb (String.eqb s EmptyString)
  | VList l => match l with [] => false | _ :: _ => true end
  | VDict d => match map_to_list d with [] => false | _ :: _ => true end
  end.

(** [a == b].  [bool] is a subtype of [int], so [True == 1]; lists compare
    element-wise and dictionaries key-wise. *)
Fixpoint py_eq (a b : value) : bool :=
  match a, b with
  | VNone, VNone => true
  | VBool x, VBool y => Bool.eqb x y
  | VBool x, VInt y => Z.b2z x =? y
  | VInt x, VBool y => x =? Z.b2z y
  | VInt x, VInt y => x =? y
  | VStr x, VStr y => String.eqb x y
  | VList la, VList lb =>
      (fix go (la lb : list value) : bool :=
         match la, lb with
         | [], [] => true
         | x :: la', y :: lb' => py_eq x y && go la' lb'
         | _, _ => false
         end) la lb
  | VDict da, VDict db =>
      Nat.eqb (size da) (size db) &&
      map_fold (fun k x acc =>
                  acc && match db !! k with
                         | Some y => py_eq x y
                         | None => false
                         end) true da
  | _, _ => false
  end.

(** [a < b].  Only numbers, strings and lists are ordered; every other
    pairing raises [TypeError]. *)
Fixpoint py_lt (a b : value) : result bool :=
  match a, b with
  | VBool x, VBool y => Ok (Z.b2z x <? Z.b2z y)
  | VBool x, VInt y => Ok (Z.b2z x <? y)
  | VInt x, VBool y => Ok (x <? Z.b2z y)
  | VInt x, VInt y => Ok (x <? y)
  | VStr x, VStr y => Ok (String.ltb x y)
  | VList la, VList lb =>
      (fix go (la lb : list value) : result bool :=
         match la, lb with
         | [], [] => Ok false
         | [], _ :: _ => Ok true
         | _ :: _, [] => Ok false
         | x :: la', y :: lb' =>
             if py_eq x y then go la' lb' else py_lt x y
         end) la lb
  | _, _ => Raise TypeError
  end.

(** [needle in v] for a string [needle]: substring test on a [str],
    membership on a list, key test on a dict, [TypeError] otherwise. *)
Definition py_in (needle : string) (v : value) : result bool :=
  match v with
  | VStr s => Ok (Str.contains needle s)
  | VList l => Ok (existsb (py_eq (VStr needle)) l)
  | VDict d => Ok (bool_decide (is_Some (d !! needle)))
  | _ => Raise TypeError
  end.

(** [v.get(k, dflt)]: only a dict has the method. *)
Definition py_get (v : value) (k : string) (dflt : value) : result value :=
  match v with
  | VDict d => Ok (default dflt (d !! k))
  | _ => Raise AttributeError
  end.

(** [v.lower()]: only a [str] has the method. *)
Definition py_lower (v : value) : result string :=
  match v with
  | VStr s => Ok (Str.lower s)
  | _ => Raise AttributeError
  end.

(** The items produced by [for x in v].  A [str] yields its characters and
    a dict its keys; the keys come in the map's order, not Python's
    insertion order, and all of them are strings. *)
Definition py_iter (v : value) : result (list value) :=
  match v with
  | VList l => Ok l
  | VStr s => Ok (map (fun c => VStr (String c EmptyString)) (list_ascii_of_string s))
  | VDict d => Ok (map (fun kv => VStr kv.1) (map_to_list d))
  | _ => Raise TypeError
  end.

(** ** The [datetime] library

    [datetime] is Python's standard library, not code of this repository:
    it is taken as an interface.  [fromisoformat] answers [None] where
    Python raises [ValueError]; [days_between a b] is [(a - b).days], and
    [None] where the subtraction raises [TypeError] (a naive and an aware
    operand). *)

Class DateTimeLib := {
  datetime : Type;
  fromisoformat : string -> option datetime;
  isoformat : datetime -> string;
  days_between : datetime -> datetime -> option Z
}.

(** ** Result shapes *)

(** The dict returned by [_analyze_nft_risk]. *)
Record RiskAssessment := {
  risk_score : Z;
  risk_factors : list string;
  is_high_risk : bool
}.

(** The dict returned by [_verify_collection]. *)
Record CollectionVerification := {
  cv_risk_score : Z;
  cv_risk_factors : list string;
  cv_is_high_risk : bool;
  cv_is_verified : bool;
  cv_verification_timestamp : string
}.

(** An entry of [questionable_nfts]. *)
Record Questionable := {
  nft_data : dict;
  risk_assessment : RiskAssessment
}.

(** The dict returned by [_verify_nfts].  [average_risk_score] is kept as
    the exact quotient; Python rounds it to a float when the list of
    scores is not empty and answers the integer [0] when it is. *)
Record VerificationResult := {
  average_risk_score : Q;
  questionable_nfts : list Questionable;
  is_verified : bool;
  verification_timestamp : string
}.

Record TokenSwaps := { swap_count : Z; listing_count : Z }.
Record NftTransfers := { deposit_count : Z; withdraw_count : Z }.

(** An entry of [recent_transactions]. *)
Record RecentTx := { rt_type : value; rt_timestamp : value; rt_success : value }.

(** The dict built by [_parse_account_activities]. *)
Record Activities := {
  nft_staking : bool;
  token_swaps : TokenSwaps;
  nft_transfers : NftTransfers;
  property_modifications : Z;
  recent_transactions : list RecentTx
}.

Record TokenBalance := {
  tb_name : string;
  tb_amount : value;
  tb_resource_type : value
}.

(** The two dicts [get_nft_data_by_owner] can return: the early
    "No resources found" answer and the full account information. *)
Inductive OwnerReport :=
| NoResources (nfts : list dict) (verified : bool) (reason : string)
| AccountInfo (owner_address : string) (nfts : list dict)
    (token_balances : list TokenBalance) (account_activities : Activities)
    (is_scammer : bool) (verification_results : VerificationResult).

(** [report.get("is_scammer")] *)
Definition report_is_scammer (r : OwnerReport) : option bool :=
  match r with
  | NoResources _ _ _ => None
  | AccountInfo _ _ _ _ s _ => Some s
  end.

(** ** [_extract_token_name]

    On a [str] argument none of the indexing steps can fail ([split]
    never returns an empty list, and index 1 and 2 are guarded by the
    tests before them), so the [except] branch is not reachable and the
    function is total. *)

Definition _extract_token_name (resource_type : string) : string :=
  let bracketed :=
    if Str.contains "<" resource_type && Str.contains ">" resource_type then
      let inside_brackets :=
        hd EmptyString (Str.split ">" (nth 1 (Str.split "<" resource_type) EmptyString)) in
      if Str.contains "::" inside_brackets
      then Some (List.last (Str.split "::" inside_brackets) EmptyString)
      else None
    else None in
  match bracketed with
  | Some name => name
  | None =>
      let parts := Str.split "::" resource_type in
      if (3 <=? length parts)%nat
      then hd EmptyString (Str.split "<" (nth 2 parts EmptyString))
      else List.last (Str.split "::" resource_type) EmptyString
  end.

(** ** [_parse_account_activities] *)

(** [any(kw in e.get("type", empty).lower() for e in events)], where
    [empty] is the empty string: stops at the
    first event that matches, so a later ill-formed event is not reached. *)
Fixpoint any_event_type (kw : string) (events : list value) : result bool :=
  match events with
  | [] => Ok false
  | e :: events' =>
      t <- py_get e "type" (VStr EmptyString) ;;
      s <- py_lower t ;;
      if Str.contains kw s then Ok true else any_event_type kw events'
  end.

(** [kw in tx_type or any(kw in e.get("type", empty).lower() for e in events)] *)
Definition type_or_event (kw tx_type : string) (events : value) : result bool :=
  if Str.contains kw tx_type then Ok true
  else es <- py_iter events ;; any_event_type kw es.

Definition b2z (b : bool) : Z := if b then 1 else 0.

(** The loop over [events] that counts deposits and withdrawals. *)
Fixpoint count_transfers (events : list value) (acc : NftTransfers)
  : result NftTransfers :=
  match events with
  | [] => Ok acc
  | event :: events' =>
      t <- py_get event "type" (VStr EmptyString) ;;
      event_type <- py_lower t ;;
      count_transfers events'
        {| deposit_count :=
             deposit_count acc + b2z (Str.contains "deposit" event_type);
           withdraw_count :=
             withdraw_count acc + b2z (Str.contains "withdraw" event_type) |}
  end.

(** [[e for e in events if "property" in e.get("type", empty).lower()]] *)
Fixpoint property_events (events : list value) : result (list value) :=
  match events with
  | [] => Ok []
  | e :: events' =>
      t <- py_get e "type" (VStr EmptyString) ;;
      s <- py_lower t ;;
      rest <- property_events events' ;;
      Ok (if Str.contains "property" s then e :: rest else rest)
  end.

Definition activities_init : Activities :=
  {| nft_staking := false;
     token_swaps := {| swap_count := 0; listing_count := 0 |};
     nft_transfers := {| deposit_count := 0; withdraw_count := 0 |};
     property_modifications := 0;
     recent_transactions := [] |}.

(** One iteration of the loop over [tx_history]. *)
Definition activities_step (activities : Activities) (tx : dict)
  : result Activities :=
  tx_type <- py_lower (default (VStr EmptyString) (tx !! "type")) ;;
  let events := default (VList []) (tx !! "events") in
  stake <- type_or_event "stake" tx_type events ;;
  swap <- type_or_event "swap" tx_type events ;;
  listing <- type_or_event "list" tx_type events ;;
  es <- py_iter events ;;
  transfers <- count_transfers es (nft_transfers activities) ;;
  es' <- py_iter events ;;
  props <- property_events es' ;;
  Ok {| nft_staking := nft_staking activities || stake;
        token_swaps :=
          {| swap_count := swap_count (token_swaps activities) + b2z swap;
             listing_count :=
               listing_count (token_swaps activities) + b2z listing |};
        nft_transfers := transfers;
        property_modifications :=
          property_modifications activities + Z.of_nat (length props);
        recent_transactions :=
          if (length (recent_transactions activities) <? 5)%nat
          then recent_transactions activities ++
               [ {| rt_type := default (VStr "Unknown") (tx !! "type");
                    rt_timestamp := default (VStr EmptyString) (tx !! "timestamp");
                    rt_success := default (VBool true) (tx !! "success") |} ]
          else recent_transactions activities |}.

Fixpoint activities_loop (txs : list dict) (activities : Activities)
  : result Activities :=
  match txs with
  | [] => Ok activities
  | tx :: txs' =>
      activities' <- activities_step activities tx ;;
      activities_loop txs' activities'
  end.

(** [tx_history] is what the gateway answered: [None] when the fetch
    failed.  The [for] statement raises [TypeError] on [None]. *)
Definition _parse_account_activities (tx_history : option (list dict))
  : result Activities :=
  match tx_history with
  | None => Raise TypeError
  | Some txs => activities_loop txs activities_init
  end.

(** ** Risk scoring of a single NFT *)

Definition _is_nft_transfer (tx nft_data : dict) : result bool :=
  tx_type <- py_lower (default (VStr EmptyString) (tx !! "type")) ;;
  if negb (Str.contains "transfer" tx_type) then Ok false else Ok true.

(** [sum(1 for tx in tx_history if self._is_nft_transfer(tx, nft_data))] *)
Fixpoint transfer_count (txs : list dict) (nft_data : dict) : result Z :=
  match txs with
  | [] => Ok 0
  | tx :: txs' =>
      b <- _is_nft_transfer tx nft_data ;;
      n <- transfer_count txs' nft_data ;;
      Ok (b2z b + n)
  end.

(** The two members of [expected_fields] are tried in the order
    [uri], [description]; a Python set may yield them in either order, and
    the outcome, exceptions included, is the same in both. *)
Definition _verify_nft_metadata (nft_data : dict) : result bool :=
  if negb (forallb (fun field => bool_decide (is_Some (nft_data !! field)))
             ["name"; "id"])
  then Ok false
  else
    match nft_data !! "metadata" with
    | Some original_metadata =>
        has_uri <- py_in "uri" original_metadata ;;
        found <- (if has_uri then Ok true
                  else py_in "description" original_metadata) ;;
        if negb found then Ok false else Ok true
    | None => Ok true
    end.

Definition _analyze_nft_risk (nft_data : dict) (tx_history : option (list dict))
  : result RiskAssessment :=
  complete <- _verify_nft_metadata nft_data ;;
  let start :=
    if negb complete then (40, ["INCOMPLETE_METADATA"]) else (0, []) in
  scored <-
    match tx_history with
    | Some ((_ :: _) as txs) =>
        transfers <- transfer_count txs nft_data ;;
        if 3 <? transfers
        then Ok (start.1 + 20 * (transfers - 3),
                 start.2 ++ ["HIGH_TRANSFER_VELOCITY"])
        else Ok start
    | _ => Ok start
    end ;;
  Ok {| risk_score := scored.1;
        risk_factors := scored.2;
        is_high_risk := 70 <=? scored.1 |}.

(** The loop of [_verify_nfts]: the scores and the questionable entries
    collected so far are threaded through. *)
Fixpoint verify_nfts_loop (nfts : list dict) (tx_history : option (list dict))
    (risk_scores : list Z) (questionable : list Questionable)
  : result (list Z * list Questionable) :=
  match nfts with
  | [] => Ok (risk_scores, questionable)
  | nft :: nfts' =>
      risk_result <- _analyze_nft_risk nft tx_history ;;
      verify_nfts_loop nfts' tx_history
        (risk_scores ++ [risk_score risk_result])
        (if is_high_risk risk_result
         then questionable ++
              [ {| nft_data := nft; risk_assessment := risk_result |} ]
         else questionable)
  end.

Definition sum_scores (risk_scores : list Z) : Z := fold_left Z.add risk_scores 0.

(** [sum(risk_scores) / len(risk_scores) if risk_scores else 0] *)
Definition average (risk_scores : list Z) : Q :=
  match risk_scores with
  | [] => 0%Q
  | _ :: _ => Qmake (sum_scores risk_scores) (Pos.of_nat (length risk_scores))
  end.

(** ** The gateway and the verifier object *)

(** The two read calls of [AptosAPI] used on the owner path.  Each answers
    [None] when the request failed and the decoded list otherwise. *)
Record AptosAPI := {
  get_account_resources : string -> option (list dict);
  get_account_transactions : string -> option (list dict)
}.

(** Modelled from the spec: [db.get_known_scammers] is not among the
    sources; the registry is a set of address strings read once when the
    verifier is built. *)
Record NFTVerifier := {
  aptos_api : AptosAPI;
  known_scammers : gset string
}.

Section Clocked.

Context {DT : DateTimeLib}.

(** [clock n] is what the [n]-th call of [datetime.now()] answers; the
    functions below take the number of calls made so far and return it
    updated. *)
Variable clock : nat -> datetime.

Definition _verify_nfts (nfts : list dict) (tx_history : option (list dict))
    (t : nat) : result (VerificationResult * nat) :=
  acc <- verify_nfts_loop nfts tx_history [] [] ;;
  Ok ({| average_risk_score := average acc.1;
         questionable_nfts := acc.2;
         is_verified := match acc.2 with [] => true | _ :: _ => false end;
         verification_timestamp := isoformat (clock t) |}, S t).

(** The key function of [min]: [x.get("timestamp", datetime.now().isoformat())].
    The default is computed on every call, so each call reads the clock. *)
Definition timestamp_key (x : dict) (t : nat) : value :=
  default (VStr (isoformat (clock t))) (x !! "timestamp").

(** [min(tx_history, key=...)] after its first item: an item replaces the
    current one only when its key is strictly smaller, so the first of
    several minimal items is kept. *)
Fixpoint min_loop (best : dict) (best_key : value) (rest : list dict)
    (t : nat) : result (dict * nat) :=
  match rest with
  | [] => Ok (best, t)
  | x :: rest' =>
      let k := timestamp_key x t in
      smaller <- py_lt k best_key ;;
      if smaller then min_loop x k rest' (S t)
      else min_loop best best_key rest' (S t)
  end.

Definition oldest_transaction (tx0 : dict) (rest : list dict) (t : nat)
  : result (dict * nat) :=
  min_loop tx0 (timestamp_key tx0 t) rest (S t).

(** [datetime.fromisoformat(v)]: [TypeError] unless [v] is a [str]. *)
Definition py_fromisoformat (v : value) : result datetime :=
  match v with
  | VStr s =>
      match fromisoformat s with
      | Some d => Ok d
      | None => Raise ValueError
      end
  | _ => Raise TypeError
  end.

(** The account-age check at the head of [_verify_collection]. *)
Definition account_age_check (tx_history : option (list dict)) (t : nat)
  : result (Z * list string * nat) :=
  match tx_history with
  | Some (tx0 :: rest) =>
      found <- oldest_transaction tx0 rest t ;;
      let oldest_tx := found.1 in
      let now := clock found.2 in
      created <- py_fromisoformat (default VNone (oldest_tx !! "timestamp")) ;;
      account_age_days <-
        match days_between now created with
        | Some d => Ok d
        | None => Raise TypeError
        end ;;
      if account_age_days <? 30
      then Ok (25, ["NEW_CREATOR_ACCOUNT"], S found.2)
      else Ok (0, [], S found.2)
  | _ => Ok (0, [], t)
  end.

(** The supply check: the score and the tag it adds. *)
Definition supply_check (collection_data : dict) : result (Z * list string) :=
  let supply := default (VInt 0) (collection_data !! "supply") in
  if py_eq supply (VInt 0) then Ok (50, ["ZERO_SUPPLY"])
  else
    low <- py_lt supply (VInt 5) ;;
    if low then Ok (15, ["VERY_LOW_SUPPLY"]) else Ok (0, []).

Definition metadata_check (collection_data : dict) : Z * list string :=
  if negb (truthy (default VNone (collection_data !! "description")))
     || negb (truthy (default VNone (collection_data !! "uri")))
  then (30, ["INCOMPLETE_METADATA"])
  else (0, []).

Definition _verify_collection (collection_data : dict)
    (tx_history : option (list dict)) (t : nat)
  : result (CollectionVerification * nat) :=
  age <- account_age_check tx_history t ;;
  supply <- supply_check collection_data ;;
  let meta := metadata_check collection_data in
  let risk_score := age.1.1 + supply.1 + meta.1 in
  let risk_factors := age.1.2 ++ supply.2 ++ meta.2 in
  let is_high_risk := 60 <=? risk_score in
  Ok ({| cv_risk_score := risk_score;
         cv_risk_factors := risk_factors;
         cv_is_high_risk := is_high_risk;
         cv_is_verified := negb is_high_risk;
         cv_verification_timestamp := isoformat (clock age.2) |},
      S age.2).

End Clocked.

(** ** The owner path: [get_nft_data_by_owner] *)

(** The body of the first loop: [None] when the resource is skipped. *)
Definition format_nft (resource : dict) : result (option dict) :=
  is_token <- py_in "token" (default (VStr EmptyString) (resource !! "type")) ;;
  if is_token then
    match default (VDict ∅) (resource !! "data") with
    | VDict raw_data =>
        let formatted_nft :=
          mk_dict
            [ ("name", default (VStr "Unnamed NFT") (raw_data !! "name"));
              ("id", default (default (VStr "N/A") (raw_data !! "id"))
                       (raw_data !! "token_id"));
              ("collection",
                default (default (VStr "N/A") (raw_data !! "collection"))
                  (raw_data !! "collection_name"));
              ("creator",
                default (default (VStr "N/A") (raw_data !! "creator"))
                  (raw_data !! "creator_address"));
              ("metadata", VDict raw_data) ] in
        let formatted_nft :=
          <["resource_type" := default VNone (resource !! "type")]> formatted_nft in
        let formatted_nft :=
          match raw_data !! "uri" with
          | Some uri => <["uri" := uri]> formatted_nft
          | None => formatted_nft
          end in
        let formatted_nft :=
          match raw_data !! "description" with
          | Some description => <["description" := description]> formatted_nft
          | None => formatted_nft
          end in
        Ok (Some formatted_nft)
    | _ => Raise AttributeError
    end
  else Ok None.

Fixpoint parse_nfts (resources : list dict) : result (list dict) :=
  match resources with
  | [] => Ok []
  | resource :: resources' =>
      formatted <- format_nft resource ;;
      rest <- parse_nfts resources' ;;
      Ok (match formatted with Some nft => nft :: rest | None => rest end)
  end.

(** The body of the second loop.  [.lower()] raises unless the type is a
    [str], so the name is extracted from a string. *)
Definition format_balance (resource : dict) : result (option TokenBalance) :=
  match default (VStr EmptyString) (resource !! "type") with
  | VStr ty =>
      if Str.contains "coin" (Str.lower ty) || Str.contains "token" (Str.lower ty)
      then
        let raw_data := default (VDict ∅) (resource !! "data") in
        has_value <- py_in "value" raw_data ;;
        has_any <- (if has_value then Ok true else py_in "amount" raw_data) ;;
        if has_any then
          let token_name := _extract_token_name ty in
          fallback <- py_get raw_data "amount" (VInt 0) ;;
          amount <- py_get raw_data "value" fallback ;;
          Ok (Some {| tb_name := token_name;
                      tb_amount := amount;
                      tb_resource_type := VStr ty |})
        else Ok None
      else Ok None
  | _ => Raise AttributeError
  end.

Fixpoint parse_balances (resources : list dict) : result (list TokenBalance) :=
  match resources with
  | [] => Ok []
  | resource :: resources' =>
      formatted <- format_balance resource ;;
      rest <- parse_balances resources' ;;
      Ok (match formatted with Some b => b :: rest | None => rest end)
  end.

Section Owner.

Context {DT : DateTimeLib}.
Variable clock : nat -> datetime.

Definition get_nft_data_by_owner (self : NFTVerifier) (owner_address : string)
    (t : nat) : result (OwnerReport * nat) :=
  match get_account_resources (aptos_api self) owner_address with
  | Some ((_ :: _) as resources) =>
      nfts <- parse_nfts resources ;;
      token_balances <- parse_balances resources ;;
      let tx_history :=
        get_account_transactions (aptos_api self) owner_address in
      account_activities <- _parse_account_activities tx_history ;;
      verification <- _verify_nfts clock nfts tx_history t ;;
      Ok (AccountInfo owner_address nfts token_balances account_activities
            (bool_decide (owner_address ∈ known_scammers self))
            verification.1,
          verification.2)
  | _ => Ok (NoResources [] false "No resources found", t)
  end.

End Owner.

(** ** A reference instance of the [datetime] interface

    Naive timestamps with whole seconds, written [YYYY-MM-DDTHH:MM:SS].
    Python accepts further ISO 8601 variants (a date alone, fractions of a
    second, UTC offsets), which this instance rejects; the examples use
    timestamps of the accepted shape and strings that no variant accepts. *)

Module SimpleDateTime.

Record t := {
  year : Z; month : Z; day : Z;
  hour : Z; minute : Z; second : Z
}.

Definition digit (c : ascii) : option Z :=
  let n := N_of_ascii c in
  if ((48 <=? n) && (n <=? 57))%N then Some (Z.of_N n - 48) else None.

Fixpoint number_acc (s : string) (acc : Z) : option Z :=
  match s with
  | EmptyString => Some acc
  | String c s' =>
      match digit c with
      | Some d => number_acc s' (10 * acc + d)
      | None => None
      end
  end.

Definition number (s : string) : option Z :=
  match s with
  | EmptyString => None
  | _ => number_acc s 0
  end.

Definition is_leap (y : Z) : bool :=
  ((y mod 4 =? 0) && negb (y mod 100 =? 0)) || (y mod 400 =? 0).

Definition days_in_month (y m : Z) : Z :=
  if m =? 2 then (if is_leap y then 29 else 28)
  else if (m =? 4) || (m =? 6) || (m =? 9) || (m =? 11) then 30
  else 31.

Definition days_before_year (y : Z) : Z :=
  let p := y - 1 in p * 365 + p / 4 - p / 100 + p / 400.

Definition days_before_month (y m : Z) : Z :=
  fold_left (fun acc k => acc + days_in_month y (Z.of_nat k))
    (seq 1 (Z.to_nat (m - 1))) 0.

Definition ordinal (d : t) : Z :=
  days_before_year (year d) + days_before_month (year d) (month d) + day d.

Definition seconds (d : t) : Z :=
  ordinal d * 86400 + hour d * 3600 + minute d * 60 + second d.

Definition valid (d : t) : bool :=
  (1 <=? year d) && (year d <=? 9999)
  && (1 <=? month d) && (month d <=? 12)
  && (1 <=? day d) && (day d <=? days_in_month (year d) (month d))
  && (0 <=? hour d) && (hour d <? 24)
  && (0 <=? minute d) && (minute d <? 60)
  && (0 <=? second d) && (second d <? 60).

Definition field (s : string) (from len : nat) : option Z :=
  number (String.substring from len s).

Definition sep_at (s : string) (i : nat) (c : string) : bool :=
  String.eqb (String.substring i 1 s) c.

Definition parse (s : string) : option t :=
  if Nat.eqb (String.length s) 19
     && sep_at s 4 "-" && sep_at s 7 "-" && sep_at s 10 "T"
     && sep_at s 13 ":" && sep_at s 16 ":"
  then
    match field s 0 4, field s 5 2, field s 8 2,
          field s 11 2, field s 14 2, field s 17 2 with
    | Some y, Some mo, Some d, Some h, Some mi, Some se =>
        let r := {| year := y; month := mo; day := d;
                    hour := h; minute := mi; second := se |} in
        if valid r then Some r else None
    | _, _, _, _, _, _ => None
    end
  else None.

Definition digit_char (n : Z) : ascii := ascii_of_N (Z.to_N (48 + n mod 10)).

Definition pad2 (n : Z) : string :=
  String (digit_char (n / 10)) (String (digit_char n) EmptyString).

Definition pad4 (n : Z) : string :=
  String.append (pad2 (n / 100)) (pad2 (n mod 100)).

Definition format (d : t) : string :=
  String.concat EmptyString
    [ pad4 (year d); "-"; pad2 (month d); "-"; pad2 (day d); "T";
      pad2 (hour d); ":"; pad2 (minute d); ":"; pad2 (second d) ].

(** [(a - b).days]: the floor of the difference in days. *)
Definition days (a b : t) : option Z := Some ((seconds a - seconds b) / 86400).

End SimpleDateTime.

#[export] Instance simple_datetime : DateTimeLib := {|
  datetime := SimpleDateTime.t;
  fromisoformat := SimpleDateTime.parse;
  isoformat := SimpleDateTime.format;
  days_between := SimpleDateTime.days
|}.

(** A clock that starts on 4 November 2026 at noon and advances by one
    second at every reading. *)
Definition sample_clock (n : nat) : @datetime simple_datetime :=
  {| SimpleDateTime.year := 2026; SimpleDateTime.month := 11;
     SimpleDateTime.day := 4; SimpleDateTime.hour := 12;
     SimpleDateTime.minute := Z.of_nat (n / 60) mod 60;
     SimpleDateTime.second := Z.of_nat n mod 60 |}.

(** ** Sample data *)

(** The NFT [{name: "X", id: "1"}]. *)
Definition plain_nft : dict := mk_dict [("name", VStr "X"); ("id", VStr "1")].

(** The collection [{supply: 0, description: null, uri: null}]. *)
Definition empty_collection : dict :=
  mk_dict [("supply", VInt 0); ("description", VNone); ("uri", VNone)].

Definition tx_of_type (ty : string) : dict := mk_dict [("type", VStr ty)].

Definition tx_at (ty stamp : string) : dict :=
  mk_dict [("type", VStr ty); ("timestamp", VStr stamp)].

(** A gateway that answers the same for every address. *)
Definition fixed_api (resources txs : option (list dict)) : AptosAPI :=
  {| get_account_resources := fun _ => resources;
     get_account_transactions := fun _ => txs |}.

Definition token_store : dict :=
  mk_dict [ ("type", VStr "0x3::token::TokenStore");
            ("data", VDict (mk_dict [("name", VStr "Ape #1");
                                     ("token_id", VStr "7");
                                     ("uri", VStr "ipfs://ape1")])) ].

Definition coin_store : dict :=
  mk_dict [ ("type", VStr "0x1::coin::CoinStore<0x1::aptos_coin::AptosCoin>");
            ("data", VDict (mk_dict [("value", VInt 1200)])) ].

(** ** Statements compared with the code *)

(** The transfer count as the specification words it: the transactions
    whose type contains "transfer", the type being read as it is. *)
Definition spec_transfer_count (txs : list dict) : Z :=
  Z.of_nat (length (List.filter
    (fun tx => match default (VStr EmptyString) (tx !! "type") with
               | VStr s => Str.contains "transfer" s
               | _ => false
               end) txs)).

(** The transfer rule with that count: the tag is present exactly when the
    count exceeds 3, and the score is the metadata penalty plus
    [20 * (c - 3)]. *)
Definition transfer_rule_as_stated (nft : dict) (txs : list dict) : Prop :=
  forall r, _analyze_nft_risk nft (Some txs) = Ok r ->
    let c := spec_transfer_count txs in
    (In "HIGH_TRANSFER_VELOCITY" (risk_factors r) <-> 3 < c)
    /\ (3 < c -> 20 * (c - 3) <= risk_score r).

(** The score and tags of [_analyze_nft_risk] before its transfer rule. *)
Definition metadata_penalty (complete : bool) : Z * list string :=
  if negb complete then (40, ["INCOMPLETE_METADATA"]) else (0, []).

(** What the code counts: the transactions whose lower-cased type contains
    "transfer". *)
Definition mentions_transfer (tx : dict) : bool :=
  match default (VStr EmptyString) (tx !! "type") with
  | VStr s => Str.contains "transfer" (Str.lower s)
  | _ => false
  end.

Definition lowered_transfer_count (txs : list dict) : Z :=
  Z.of_nat (length (List.filter mentions_transfer txs)).

(** Every transaction has a string for its type, or none at all. *)
Definition typed_history (txs : list dict) : Prop :=
  Forall (fun tx => exists s, default (VStr EmptyString) (tx !! "type") = VStr s) txs.

(** Every owner report returned for a registered address carries
    [is_scammer = true], as the specification words it. *)
Definition flagged_as_stated {DT : DateTimeLib} (clock : nat -> datetime)
    (self : NFTVerifier) (owner : string) (t : nat) : Prop :=
  owner ∈ known_scammers self ->
  forall r t', get_nft_data_by_owner clock self owner t = Ok (r, t') ->
               report_is_scammer r = Some true.

(** A verifier whose registry holds one address. *)
Definition verifier_with (api : AptosAPI) : NFTVerifier :=
  {| aptos_api := api; known_scammers := {[ "0xbad" ]} |}.

(** Four transactions typed in upper case. *)
Definition shouting_history : list dict :=
  [ tx_of_type "NFT_TRANSFER"; tx_of_type "NFT_TRANSFER";
    tx_of_type "NFT_TRANSFER"; tx_of_type "NFT_TRANSFER" ].

(** Five transactions whose type, lower-cased, contains "transfer". *)
Definition five_transfers : list dict :=
  [ tx_of_type "0x3::token::transfer"; tx_of_type "coin_transfer";
    tx_of_type "transfer"; tx_of_type "0x3::token::transfer";
    tx_of_type "Direct_Transfer" ].

(** A history whose earliest timestamp is not a date. *)
Definition malformed_history : list dict :=
  [ tx_at "user_transaction" "tomorrow"; tx_at "user_transaction" "not-a-date" ].

(** A collection with complete metadata and no [supply] key. *)
Definition unsupplied_collection : dict :=
  mk_dict [("name", VStr "Apes"); ("description", VStr "Ten apes");
           ("uri", VStr "ipfs://apes")].

(** A creator whose only transaction is two weeks old on [sample_clock]. *)
Definition recent_history : list dict :=
  [ tx_at "user_transaction" "2026-10-20T08:30:00" ].

(** ** The collection path: [get_nft_data_by_collection] *)

Section PyStr.

(** The text [str] gives for a list or a dict (their [repr]) is not
    spelled out; it is a parameter of the functions that call [str]. *)
Variable repr_container : value -> string.

(** [str(v)] *)
Definition py_str (v : value) : string :=
  match v with
  | VNone => "None"
  | VBool true => "True"
  | VBool false => "False"
  | VInt z => pretty z
  | VStr s => s
  | VList _ | VDict _ => repr_container v
  end.

(** [[token for token in tokens if str(token.get("id")) == token_id]]:
    every token is asked for its id, so one that is not a dict raises. *)
Fixpoint filter_tokens (tokens : list value) (token_id : string)
  : result (list dict) :=
  match tokens with
  | [] => Ok []
  | VDict token :: tokens' =>
      rest <- filter_tokens tokens' token_id ;;
      Ok (if String.eqb (py_str (default VNone (token !! "id"))) token_id
          then token :: rest else rest)
  | _ :: _ => Raise AttributeError
  end.

(** [[nft for nft in result["nfts"] if str(nft.get("id")) == token_id]] *)
Definition filter_nfts (nfts : list dict) (token_id : string) : list dict :=
  List.filter
    (fun nft => String.eqb (py_str (default VNone (nft !! "id"))) token_id)
    nfts.

End PyStr.

(** An optional string parameter tested with [if p:]. *)
Definition given (p : option string) : bool :=
  match p with
  | Some s => truthy (VStr s)
  | None => false
  end.

(** One entry of [formatted_items]. *)
Definition format_item (item : value) : result value :=
  match item with
  | VDict d =>
      Ok (VDict (mk_dict
        [ ("name", default (VStr "Unnamed Item") (d !! "name"));
          ("id", default (default (VStr "N/A") (d !! "id")) (d !! "token_id"));
          ("owner", default (VStr "N/A") (d !! "owner"));
          ("metadata", item) ]))
  | _ => Raise AttributeError
  end.

Fixpoint format_items_loop (items : list value) : result (list value) :=
  match items with
  | [] => Ok []
  | item :: items' =>
      formatted_item <- format_item item ;;
      rest <- format_items_loop items' ;;
      Ok (formatted_item :: rest)
  end.

(** The reshaping of [collection_data["items"]], done in place when the
    key holds a list. *)
Definition format_items (collection_data : dict) : result dict :=
  match collection_data !! "items" with
  | Some (VList items) =>
      formatted_items <- format_items_loop items ;;
      Ok (<["items" := VList formatted_items]> collection_data)
  | _ => Ok collection_data
  end.

Definition format_token (creator_address collection_name : string)
    (token_data : dict) : dict :=
  mk_dict
    [ ("name", default (VStr "Unnamed Token") (token_data !! "name"));
      ("id", default (default (VStr "N/A") (token_data !! "id"))
               (token_data !! "token_id"));
      ("owner", default (VStr "N/A") (token_data !! "owner"));
      ("creator", VStr creator_address);
      ("collection", VStr collection_name);
      ("metadata", VDict token_data) ].

(** The value of the [token_verification] key. *)
Inductive TokenVerification :=
| TokenVerified (risk : RiskAssessment) (verified : bool)
| TokenNotFound (verified : bool) (reason : string).

(** The keys [token_data] and [token_verification], set together. *)
Record TokenPart := {
  token_data : option dict;
  token_verification : TokenVerification
}.

(** The two dicts [get_nft_data_by_collection] can return. *)
Inductive CollectionReport :=
| CollectionNotFound (collection_data : value) (verified : bool) (reason : string)
| CollectionFound (creator_address collection_name : string)
    (collection_data : dict) (is_scammer : bool)
    (verification_results : CollectionVerification)
    (token : option TokenPart).

(** [report.get("collection_data")] *)
Definition report_collection_data (r : CollectionReport) : value :=
  match r with
  | CollectionNotFound c _ _ => c
  | CollectionFound _ _ c _ _ _ => VDict c
  end.

Definition report_token (r : CollectionReport) : option TokenPart :=
  match r with
  | CollectionNotFound _ _ _ => None
  | CollectionFound _ _ _ _ _ token => token
  end.

(** [report.get("nfts")] on an owner report. *)
Definition report_nfts (r : OwnerReport) : list dict :=
  match r with
  | NoResources nfts _ _ => nfts
  | AccountInfo _ nfts _ _ _ _ => nfts
  end.

(** [report["nfts"] = nfts] *)
Definition set_report_nfts (r : OwnerReport) (nfts : list dict) : OwnerReport :=
  match r with
  | NoResources _ verified reason => NoResources nfts verified reason
  | AccountInfo owner _ balances activities flag verification =>
      AccountInfo owner nfts balances activities flag verification
  end.

(** [report.get("verification_results")] on an owner report. *)
Definition report_verification (r : OwnerReport) : option VerificationResult :=
  match r with
  | NoResources _ _ _ => None
  | AccountInfo _ _ _ _ _ verification => Some verification
  end.

(** What a route of [app.py] answers: the body, or the [HTTPException]
    that FastAPI turns into an error response. *)
Inductive http (A : Type) :=
| Http200 (body : A)
| HttpError (status : Z) (detail : string).

Arguments Http200 {A} body.
Arguments HttpError {A} status detail.

(** The body of [/verify/nft]: an owner report or a collection report. *)
Inductive NftReport :=
| ByOwner (r : OwnerReport)
| ByCollection (r : CollectionReport).

Section Routes.

Context {DT : DateTimeLib}.
Variable clock : nat -> datetime.
Variable repr_container : value -> string.

(** The third read call of [AptosAPI], [get_collection_data], is passed
    beside the verifier: [None] when the request failed or no collection
    has the name. *)
Variable get_collection_data : string -> string -> option dict.

(** The part of [get_nft_data_by_collection] run when [token_id] is given. *)
Definition token_lookup (creator_address collection_name : string)
    (collection_data : dict) (tx_history : option (list dict))
    (token_id : string) : result TokenPart :=
  tokens <- py_iter (default (VList []) (collection_data !! "tokens")) ;;
  filtered_tokens <- filter_tokens repr_container tokens token_id ;;
  match filtered_tokens with
  | token_data :: _ =>
      let formatted_token :=
        format_token creator_address collection_name token_data in
      token_risk <- _analyze_nft_risk formatted_token tx_history ;;
      Ok {| token_data := Some formatted_token;
            token_verification :=
              TokenVerified token_risk (negb (is_high_risk token_risk)) |}
  | [] =>
      Ok {| token_data := None;
            token_verification :=
              TokenNotFound false "Token ID not found in collection" |}
  end.

Definition get_nft_data_by_collection (self : NFTVerifier)
    (creator_address collection_name : string) (token_id : option string)
    (t : nat) : result (CollectionReport * nat) :=
  match get_collection_data creator_address collection_name with
  | Some fetched =>
      if truthy (VDict fetched) then
        collection_data <- format_items fetched ;;
        let tx_history :=
          get_account_transactions (aptos_api self) creator_address in
        verification <- _verify_collection clock collection_data tx_history t ;;
        token <-
          (if given token_id
           then
             part <- token_lookup creator_address collection_name
                       collection_data tx_history (default EmptyString token_id) ;;
             Ok (Some part)
           else Ok None) ;;
        Ok (CollectionFound creator_address collection_name collection_data
              (bool_decide (creator_address ∈ known_scammers self))
              verification.1 token,
            verification.2)
      else Ok (CollectionNotFound VNone false "Collection not found", t)
  | None => Ok (CollectionNotFound VNone false "Collection not found", t)
  end.

(** The routes keep the response alone; the clock readings made while
    building it are not returned. *)
Definition verify_by_owner (self : NFTVerifier) (owner_address : string)
    (t : nat) : http OwnerReport :=
  match get_nft_data_by_owner clock self owner_address t with
  | Ok (verification_result, _) =>
      match report_nfts verification_result with
      | [] => HttpError 404 "No NFTs found for this owner"
      | _ :: _ => Http200 verification_result
      end
  | Raise _ => HttpError 500 "Internal Server Error"
  end.

Definition verify_by_collection (self : NFTVerifier)
    (creator_address collection_name : string) (token_id : option string)
    (t : nat) : http CollectionReport :=
  match get_nft_data_by_collection self creator_address collection_name
          token_id t with
  | Ok (verification_result, _) =>
      if negb (truthy (report_collection_data verification_result))
      then HttpError 404 "Collection not found"
      else Http200 verification_result
  | Raise _ => HttpError 500 "Internal Server Error"
  end.

Definition verify_single_nft (self : NFTVerifier)
    (owner_address creator_address collection_name token_id : option string)
    (t : nat) : http NftReport :=
  if given owner_address then
    match get_nft_data_by_owner clock self (default EmptyString owner_address) t with
    | Ok (result, _) =>
        Http200 (ByOwner
          (if given token_id && truthy (VList (map VDict (report_nfts result)))
           then set_report_nfts result
                  (filter_nfts repr_container (report_nfts result)
                     (default EmptyString token_id))
           else result))
    | Raise _ => HttpError 500 "Internal Server Error"
    end
  else if given creator_address && given collection_name then
    match get_nft_data_by_collection self (default EmptyString creator_address)
            (default EmptyString collection_name) None t with
    | Ok (result, _) => Http200 (ByCollection result)
    | Raise _ => HttpError 500 "Internal Server Error"
    end
  else
    HttpError 400
      "Insufficient parameters. Provide either owner_address or (creator_address AND collection_name)".

End Routes.

(** ** Well-formed node data and closed forms *)

(** The [type] of a record is a string, or is missing. *)
Definition typed (d : dict) : Prop :=
  exists s, default (VStr EmptyString) (d !! "type") = VStr s.

(** A resource the two loops of the owner path accept: a string type and
    a dict for its data, each possibly missing. *)
Definition wf_resource (resource : dict) : Prop :=
  typed resource
  /\ exists raw_data, default (VDict ∅) (resource !! "data") = VDict raw_data.

(** The test of the first loop on a resource with a string type. *)
Definition is_token_resource (resource : dict) : bool :=
  match default (VStr EmptyString) (resource !! "type") with
  | VStr s => Str.contains "token" s
  | _ => false
  end.

(** An event the activity loop accepts: a dict with a string type. *)
Definition wf_event (e : value) : Prop := exists d, e = VDict d /\ typed d.

(** A transaction the activity loop accepts: a string type and events
    that can be iterated and are all accepted. *)
Definition wf_tx (tx : dict) : Prop :=
  typed tx
  /\ exists events, py_iter (default (VList []) (tx !! "events")) = Ok events
                    /\ Forall wf_event events.

(** The lower-cased type of a record, empty when it is not a string. *)
Definition lowered_type (d : dict) : string :=
  match default (VStr EmptyString) (d !! "type") with
  | VStr s => Str.lower s
  | _ => EmptyString
  end.

(** The lower-cased type of an event. *)
Definition event_type (e : value) : string :=
  match e with
  | VDict d => lowered_type d
  | _ => EmptyString
  end.

(** The lower-cased types of the events of a transaction. *)
Definition event_types (tx : dict) : list string :=
  match py_iter (default (VList []) (tx !! "events")) with
  | Ok events => map event_type events
  | Raise _ => []
  end.

(** The keyword occurs in the type of the transaction or of one event. *)
Definition tx_mentions (kw : string) (tx : dict) : bool :=
  Str.contains kw (lowered_type tx) || existsb (Str.contains kw) (event_types tx).

(** How many of the strings contain the keyword. *)
Definition count_kw (kw : string) (l : list string) : Z :=
  Z.of_nat (length (List.filter (Str.contains kw) l)).

(** The number of events, over all transactions, whose type has the keyword. *)
Definition events_mentioning (kw : string) (txs : list dict) : Z :=
  count_kw kw (concat (map event_types txs)).

(** The preview entry of a transaction. *)
Definition preview (tx : dict) : RecentTx :=
  {| rt_type := default (VStr "Unknown") (tx !! "type");
     rt_timestamp := default (VStr EmptyString) (tx !! "timestamp");
     rt_success := default (VBool true) (tx !! "success") |}.

(** The summary of a history, written without the loop. *)
Definition activity_summary (txs : list dict) : Activities :=
  {| nft_staking := existsb (tx_mentions "stake") txs;
     token_swaps :=
       {| swap_count := Z.of_nat (length (List.filter (tx_mentions "swap") txs));
          listing_count := Z.of_nat (length (List.filter (tx_mentions "list") txs)) |};
     nft_transfers :=
       {| deposit_count := events_mentioning "deposit" txs;
          withdraw_count := events_mentioning "withdraw" txs |};
     property_modifications := events_mentioning "property" txs;
     recent_transactions := map preview (firstn 5 txs) |}.

(** The summary reached from [acc] after the transactions [txs]. *)
Definition activities_after (acc : Activities) (txs : list dict) : Activities :=
  {| nft_staking := nft_staking acc || existsb (tx_mentions "stake") txs;
     token_swaps :=
       {| swap_count :=
            swap_count (token_swaps acc)
            + Z.of_nat (length (List.filter (tx_mentions "swap") txs));
          listing_count :=
            listing_count (token_swaps acc)
            + Z.of_nat (length (List.filter (tx_mentions "list") txs)) |};
     nft_transfers :=
       {| deposit_count :=
            deposit_count (nft_transfers acc) + events_mentioning "deposit" txs;
          withdraw_count :=
            withdraw_count (nft_transfers acc) + events_mentioning "withdraw" txs |};
     property_modifications :=
       property_modifications acc + events_mentioning "property" txs;
     recent_transactions :=
       firstn 5 (recent_transactions acc ++ map preview txs) |}.

(** The entries of [questionable_nfts] for NFTs and their assessments: the
    high-risk ones, in the order of the NFTs. *)
Definition questionable_of (nfts : list dict) (assessments : list RiskAssessment)
  : list Questionable :=
  map (fun na => {| nft_data := na.1; risk_assessment := na.2 |})
    (List.filter (fun na => is_high_risk na.2) (combine nfts assessments)).

(** A history of one staking transaction with two events. *)
Definition staking_history : list dict :=
  [ mk_dict [ ("type", VStr "Stake_Transaction");
              ("events",
                VList [ VDict (mk_dict [("type", VStr "0x3::token::DepositEvent")]);
                        VDict (mk_dict [("type", VStr "0x1::dex::SwapEvent")]) ]) ] ].

(** The transfer count a history contributes to every NFT. *)
Definition history_transfers (tx_history : option (list dict)) : Z :=
  match tx_history with
  | Some txs => lowered_transfer_count txs
  | None => 0
  end.

(** A second NFT, unrelated to [plain_nft]. *)
Definition other_nft : dict :=
  mk_dict [("name", VStr "Y"); ("id", VStr "2"); ("collection", VStr "Birds")].

(** An NFT without [id]. *)
Definition nameless_nft : dict := mk_dict [("name", VStr "Z")].

(** Seven transfers. *)
Definition seven_transfers : list dict :=
  five_transfers ++ [ tx_of_type "transfer"; tx_of_type "Transfer" ].

(** The timestamp string of a transaction, when it has one. *)
Definition stamp_of (tx : dict) : option string :=
  match tx !! "timestamp" with
  | Some (VStr s) => Some s
  | _ => None
  end.

(** Every transaction of the history carries a string timestamp. *)
Definition stamped_history (txs : list dict) : Prop :=
  Forall (fun tx => is_Some (stamp_of tx)) txs.

(** ** Sample data for the collection path and the routes *)


(** A collection with two items and two tokens. *)
Definition ape_collection : dict :=
  mk_dict
    [ ("name", VStr "Apes"); ("description", VStr "Ten apes");
      ("uri", VStr "ipfs://apes"); ("supply", VInt 10);
      ("items", VList [ VDict (mk_dict [("name", VStr "Ape #1");
                                        ("token_id", VStr "7")]);
                        VDict (mk_dict [("id", VInt 8)]) ]);
      ("tokens", VList [ VDict (mk_dict [("id", VInt 7);
                                         ("name", VStr "Ape #1");
                                         ("uri", VStr "ipfs://ape1")]);
                         VDict (mk_dict [("id", VStr "9");
                                         ("token_id", VStr "x9")]) ]) ].

(** A collection gateway that answers the same for every request. *)
Definition fixed_collection (answer : option dict) : string -> string -> option dict :=
  fun _ _ => answer.

(** A stand-in for the text of lists and dicts. *)
Definition sample_repr (v : value) : string := "<container>".

(** A verifier for the account of [token_store] and [coin_store]. *)
Definition ape_owner : NFTVerifier :=
  verifier_with (fixed_api (Some [token_store; coin_store]) (Some staking_history)).

(** Two stamped transactions, the later one first. *)
Definition two_stamps : list dict :=
  [ tx_at "a" "2026-01-01T00:00:00"; tx_at "c" "2025-12-31T23:59:59" ].

(** ** Strings on which the model's lower-casing is Python's

    [Str.lower] changes the letters A to Z alone.  Python's [str.lower]
    does the same on a string of ASCII characters and more on others (it
    turns the Kelvin sign into "k"), so the properties that rest on a
    lower-cased type are stated for ASCII types. *)

Definition is_ascii (s : string) : bool :=
  forallb (fun c => (N_of_ascii c <? 128)%N) (list_ascii_of_string s).

(** The type of a record, when it is a string, is ASCII. *)
Definition ascii_typed (d : dict) : bool :=
  match default (VStr EmptyString) (d !! "type") with
  | VStr s => is_ascii s
  | _ => true
  end.

(** The types of a transaction and of its events are ASCII. *)
Definition ascii_tx (tx : dict) : bool :=
  ascii_typed tx
  && match py_iter (default (VList []) (tx !! "events")) with
     | Ok events =>
         forallb (fun e => match e with
                           | VDict d => ascii_typed d
                           | _ => true
                           end) events
     | Raise _ => true
     end.

(** ** Examples *)

Example split_ex1 : Str.split "::" "0x1::a::B" = ["0x1"; "a"; "B"].
Proof. reflexivity. Qed.
Example split_ex2 : Str.split "::" "a:::b" = ["a"; ":b"].
Proof. reflexivity. Qed.
Example split_ex3 : Str.split "<" "abc" = ["abc"].
Proof. reflexivity. Qed.
Example lower_ex : Str.lower "Coin_TRANSFER<0x1>" = "coin_transfer<0x1>".
Proof. reflexivity. Qed.

Example parse_format_ex :
  SimpleDateTime.parse "2026-10-20T08:30:00"
  = Some {| SimpleDateTime.year := 2026; SimpleDateTime.month := 10;
            SimpleDateTime.day := 20; SimpleDateTime.hour := 8;
            SimpleDateTime.minute := 30; SimpleDateTime.second := 0 |}
  /\ SimpleDateTime.format (sample_clock 5) = "2026-11-04T12:00:05"
  /\ SimpleDateTime.parse "not-a-date" = None
  /\ (d <- py_fromisoformat (VStr "2026-10-20T08:30:00") ;;
      Ok (days_between (sample_clock 0) d)) = Ok (Some 15).
Proof. repeat split; reflexivity. Qed.

Example format_nft_ex :
  format_nft token_store
  = Ok (Some (mk_dict
        [ ("name", VStr "Ape #1"); ("id", VStr "7");
          ("collection", VStr "N/A"); ("creator", VStr "N/A");
          ("metadata", VDict (mk_dict [("name", VStr "Ape #1");
                                       ("token_id", VStr "7");
                                       ("uri", VStr "ipfs://ape1")]));
          ("resource_type", VStr "0x3::token::TokenStore");
          ("uri", VStr "ipfs://ape1") ])).
Proof. vm_compute. reflexivity. Qed.

Example format_balance_ex :
  format_balance coin_store
  = Ok (Some {| tb_name := "AptosCoin"; tb_amount := VInt 1200;
                tb_resource_type :=
                  VStr "0x1::coin::CoinStore<0x1::aptos_coin::AptosCoin>" |}).
Proof. vm_compute. reflexivity. Qed.

Example activities_ex :
  _parse_account_activities
    (Some [ mk_dict [ ("type", VStr "Stake_Transaction");
                      ("events", VList [ VDict (mk_dict [("type", VStr "0x3::token::DepositEvent")]);
                                         VDict (mk_dict [("type", VStr "0x1::dex::SwapEvent")]) ]) ] ])
  = Ok {| nft_staking := true;
          token_swaps := {| swap_count := 1; listing_count := 0 |};
          nft_transfers := {| deposit_count := 1; withdraw_count := 0 |};
          property_modifications := 0;
          recent_transactions :=
            [ {| rt_type := VStr "Stake_Transaction";
                 rt_timestamp := VStr EmptyString;
                 rt_success := VBool true |} ] |}.
Proof. vm_compute. reflexivity. Qed.

(** An ill-formed event is not reached once an earlier one matched; the
    test for a keyword that no event carries meets it. *)
Example activities_bad_event :
  type_or_event "swap" "user_transaction"
    (VList [ VDict (mk_dict [("type", VStr "SwapEvent")]); VInt 3 ]) = Ok true
  /\ _parse_account_activities
       (Some [ mk_dict [ ("events", VList [ VDict (mk_dict [("type", VStr "SwapEvent")]);
                                            VInt 3 ]) ] ])
     = Raise AttributeError.
Proof. split; vm_compute; reflexivity. Qed.

(** ** Basic facts about the primitives *)

Lemma bind_Ok {A B : Type} (m : result A) (k : A -> result B) (b : B) :
  bind m k = Ok b -> exists a, m = Ok a /\ k a = Ok b.
Proof. destruct m as [a | e]; simpl; [ eauto | discriminate ]. Qed.

Ltac bind_inv H :=
  let x := fresh "x" in
  let Hx := fresh "Hx" in
  apply bind_Ok in H; destruct H as (x & Hx & H).

(** ** Token names *)

(** C9: the two documented inputs of [_extract_token_name] give
    "AptosCoin" and "B". *)
Theorem extract_token_name_examples :
  _extract_token_name "0x1::coin::CoinStore<0x1::aptos_coin::AptosCoin>" = "AptosCoin"
  /\ _extract_token_name "0x1::a::B" = "B".
Proof. split; reflexivity. Qed.

(** ** Account activities *)

Lemma parse_activities_empty :
  _parse_account_activities (Some []) = Ok activities_init.
Proof. reflexivity. Qed.

(** ** Scoring a single NFT *)

Lemma is_nft_transfer_typed (tx nft : dict) (s : string) :
  default (VStr EmptyString) (tx !! "type") = VStr s ->
  _is_nft_transfer tx nft = Ok (mentions_transfer tx).
Proof.
  intros Hty. unfold _is_nft_transfer, mentions_transfer. rewrite Hty. simpl.
  destruct (Str.contains "transfer" (Str.lower s)); reflexivity.
Qed.

Lemma is_nft_transfer_Ok (tx nft : dict) (b : bool) :
  _is_nft_transfer tx nft = Ok b ->
  b = mentions_transfer tx
  /\ exists s, default (VStr EmptyString) (tx !! "type") = VStr s.
Proof.
  unfold _is_nft_transfer, mentions_transfer.
  destruct (default (VStr EmptyString) (tx !! "type")) as [ | | | s | | ];
    simpl; try discriminate.
  intros H. split; [ | eauto ].
  destruct (Str.contains "transfer" (Str.lower s)); simpl in H; congruence.
Qed.

Lemma lowered_transfer_count_cons (tx : dict) (txs : list dict) :
  lowered_transfer_count (tx :: txs)
  = b2z (mentions_transfer tx) + lowered_transfer_count txs.
Proof.
  unfold lowered_transfer_count. simpl.
  destruct (mentions_transfer tx); simpl b2z; simpl length; lia.
Qed.

(** On a well-typed history the count is computed, and it is the number of
    transactions whose lower-cased type mentions "transfer". *)
Lemma transfer_count_typed (txs : list dict) (nft : dict) :
  typed_history txs ->
  transfer_count txs nft = Ok (lowered_transfer_count txs).
Proof.
  induction 1 as [ | tx txs [s Hs] _ IH ]; [ reflexivity | ].
  simpl transfer_count.
  rewrite (is_nft_transfer_typed tx nft s Hs), IH. simpl.
  now rewrite lowered_transfer_count_cons.
Qed.

(** Conversely the count is only computed on a well-typed history. *)
Lemma transfer_count_Ok (txs : list dict) (nft : dict) (c : Z) :
  transfer_count txs nft = Ok c ->
  c = lowered_transfer_count txs /\ typed_history txs.
Proof.
  revert c. induction txs as [ | tx txs IH ]; intros c H; simpl in H.
  - injection H as <-. split; [ reflexivity | constructor ].
  - bind_inv H. bind_inv H. injection H as <-.
    destruct (is_nft_transfer_Ok _ _ _ Hx) as [-> Hty].
    destruct (IH _ Hx0) as [-> Htyped].
    split; [ now rewrite lowered_transfer_count_cons | now constructor ].
Qed.

(** The shape of every assessment [_analyze_nft_risk] returns. *)
Lemma analyze_nft_risk_Ok (nft : dict) (tx_history : option (list dict))
    (r : RiskAssessment) :
  _analyze_nft_risk nft tx_history = Ok r ->
  exists complete c,
    _verify_nft_metadata nft = Ok complete
    /\ match tx_history with
       | Some ((_ :: _) as txs) => transfer_count txs nft = Ok c
       | _ => c = 0
       end
    /\ risk_score r
       = (metadata_penalty complete).1 + (if 3 <? c then 20 * (c - 3) else 0)
    /\ risk_factors r
       = (metadata_penalty complete).2
         ++ (if 3 <? c then ["HIGH_TRANSFER_VELOCITY"] else [])
    /\ is_high_risk r = (70 <=? risk_score r).
Proof.
  unfold _analyze_nft_risk. intros H.
  apply bind_Ok in H. destruct H as (complete & Hmeta & H).
  apply bind_Ok in H. destruct H as (scored & Hscored & H).
  injection H as <-. fold (metadata_penalty complete) in Hscored. simpl.
  destruct tx_history as [ [ | tx txs ] | ].
  - injection Hscored as <-. exists complete, 0. simpl.
    rewrite Z.add_0_r, app_nil_r. auto.
  - apply bind_Ok in Hscored. destruct Hscored as (c & Hc & Hscored).
    exists complete, c.
    destruct (3 <? c); injection Hscored as <-; simpl;
      rewrite ?Z.add_0_r, ?app_nil_r; auto.
  - injection Hscored as <-. exists complete, 0. simpl.
    rewrite Z.add_0_r, app_nil_r. auto.
Qed.

(** C6: an NFT with [name] and [id] and no [metadata] key, scored without
    a transaction history (absent or empty), gets score 0, no risk factor and
    is not high-risk: the missing nested metadata alone does not count as
    incomplete metadata. *)
Theorem nft_without_metadata_scores_zero (nft : dict) :
  is_Some (nft !! "name") -> is_Some (nft !! "id") -> nft !! "metadata" = None ->
  _verify_nft_metadata nft = Ok true
  /\ forall tx_history, tx_history = None \/ tx_history = Some [] ->
       _analyze_nft_risk nft tx_history
       = Ok {| risk_score := 0; risk_factors := []; is_high_risk := false |}.
Proof.
  intros Hname Hid Hmeta.
  assert (Hcomplete : _verify_nft_metadata nft = Ok true).
  { unfold _verify_nft_metadata. simpl forallb.
    rewrite (bool_decide_eq_true_2 _ Hname), (bool_decide_eq_true_2 _ Hid).
    simpl. now rewrite Hmeta. }
  split; [ exact Hcomplete | ].
  intros tx_history [-> | ->]; unfold _analyze_nft_risk;
    rewrite Hcomplete; reflexivity.
Qed.

Lemma nft_without_metadata_scores_zero_witness :
  _verify_nft_metadata plain_nft = Ok true
  /\ _analyze_nft_risk plain_nft None
     = Ok {| risk_score := 0; risk_factors := []; is_high_risk := false |}.
Proof.
  assert (Hname : is_Some (plain_nft !! "name")) by (exists (VStr "X"); reflexivity).
  assert (Hid : is_Some (plain_nft !! "id")) by (exists (VStr "1"); reflexivity).
  assert (Hmeta : plain_nft !! "metadata" = None) by reflexivity.
  destruct (nft_without_metadata_scores_zero plain_nft Hname Hid Hmeta)
    as [Hcomplete Hscore].
  split; [ exact Hcomplete | apply Hscore; left; reflexivity ].
Defined.

(** C3, as the code has it: whenever [_analyze_nft_risk] returns on a
    present transaction history, the transactions it counted are those whose
    lower-cased type contains "transfer", whatever the NFT; the score is the
    metadata penalty plus [20 * (c - 3)] when the count [c] exceeds 3, the
    tag HIGH_TRANSFER_VELOCITY is present exactly in that case, and a count
    of 5 brings the score to 40 at least.  It does return when every type is
    a string or missing and the metadata check completes. *)
Theorem transfer_velocity_rule (nft : dict) (txs : list dict) :
  (forall r,
      _analyze_nft_risk nft (Some txs) = Ok r ->
      let c := lowered_transfer_count txs in
      (exists complete,
          _verify_nft_metadata nft = Ok complete
          /\ risk_score r
             = (if complete then 0 else 40)
               + (if 3 <? c then 20 * (c - 3) else 0))
      /\ (In "HIGH_TRANSFER_VELOCITY" (risk_factors r) <-> 3 < c)
      /\ (c = 5 -> 40 <= risk_score r))
  /\ (typed_history txs ->
      forall complete, _verify_nft_metadata nft = Ok complete ->
      exists r, _analyze_nft_risk nft (Some txs) = Ok r).
Proof.
  split.
  - intros r Hr.
    destruct (analyze_nft_risk_Ok _ _ _ Hr) as (complete & c' & Hb & Hc' & Hs & Hf & _).
    assert (c' = lowered_transfer_count txs) as ->.
    { destruct txs as [ | tx txs' ]; [ subst c'; reflexivity | ].
      now destruct (transfer_count_Ok _ _ _ Hc'). }
    cbv zeta. set (c := lowered_transfer_count txs) in *.
    assert (Hpen : (metadata_penalty complete).1 = if complete then 0 else 40)
      by (destruct complete; reflexivity).
    rewrite Hpen in Hs. split; [ | split ].
    + exists complete. split; assumption.
    + rewrite Hf. destruct (Z.ltb_spec 3 c) as [Hlt | Hge].
      * split; [ intros _; exact Hlt | intros _ ].
        apply in_or_app. right. left. reflexivity.
      * rewrite app_nil_r. split; [ | lia ].
        destruct complete; simpl; [ tauto | ].
        intros [Habs | []]. discriminate Habs.
    + rewrite Hs. intros ->. destruct complete; simpl; lia.
  - intros Htyped complete Hmeta.
    pose proof (transfer_count_typed txs nft Htyped) as Hcount.
    unfold _analyze_nft_risk. rewrite Hmeta. cbn [bind].
    destruct txs as [ | tx txs' ]; [ cbn [bind]; eauto | ].
    rewrite Hcount. cbn [bind].
    destruct (3 <? lowered_transfer_count (tx :: txs')); cbn [bind]; eauto.
Qed.

Lemma transfer_velocity_rule_witness :
  exists r,
    _analyze_nft_risk plain_nft (Some five_transfers) = Ok r
    /\ risk_score r = 40
    /\ In "HIGH_TRANSFER_VELOCITY" (risk_factors r).
Proof.
  assert (Htyped : typed_history five_transfers).
  { repeat constructor; eexists; vm_compute; reflexivity. }
  assert (Hmeta : _verify_nft_metadata plain_nft = Ok true) by reflexivity.
  destruct (transfer_velocity_rule plain_nft five_transfers) as [Hrule Hreturns].
  destruct (Hreturns Htyped true Hmeta) as [r Hr].
  destruct (Hrule r Hr) as ((complete & Hcomplete & Hscore) & Htag & _).
  exists r. split; [ exact Hr | ]. split.
  - rewrite Hscore. rewrite Hmeta in Hcomplete. injection Hcomplete as <-.
    reflexivity.
  - apply Htag. reflexivity.
Defined.

(** C3, as stated, fails: four transactions typed "NFT_TRANSFER" contain no
    "transfer" when the type is read as it is, yet the code tags the NFT. *)
Lemma transfer_rule_as_stated_fails :
  ~ transfer_rule_as_stated plain_nft shouting_history.
Proof.
  intros Hclaim.
  assert (Hrun : _analyze_nft_risk plain_nft (Some shouting_history)
                 = Ok {| risk_score := 20;
                         risk_factors := ["HIGH_TRANSFER_VELOCITY"];
                         is_high_risk := false |})
    by (vm_compute; reflexivity).
  destruct (Hclaim _ Hrun) as [[Htag _] _].
  assert (Hzero : spec_transfer_count shouting_history = 0)
    by (vm_compute; reflexivity).
  rewrite Hzero in Htag. simpl in Htag.
  assert (3 < 0) by (apply Htag; left; reflexivity). lia.
Qed.

(** ** Aggregating over a list of NFTs *)

Section Aggregate.

Context {DT : DateTimeLib}.
Variable clock : nat -> datetime.

(** C8: on the empty NFT list, with any transaction history,
    [_verify_nfts] answers an average of 0, no questionable NFT and
    [is_verified = true]; and whatever it answers is verified exactly when
    the list of questionable NFTs is empty. *)
Theorem verify_nfts_verified_iff_none_questionable :
  (forall tx_history t,
      _verify_nfts clock [] tx_history t
      = Ok ({| average_risk_score := 0%Q;
               questionable_nfts := [];
               is_verified := true;
               verification_timestamp := isoformat (clock t) |}, S t))
  /\ (forall nfts tx_history t r t',
         _verify_nfts clock nfts tx_history t = Ok (r, t') ->
         (is_verified r = true <-> questionable_nfts r = [])).
Proof.
  split; [ reflexivity | ].
  intros nfts tx_history t r t' H. unfold _verify_nfts in H.
  apply bind_Ok in H. destruct H as ([scores questionable] & _ & H).
  injection H as <- _. simpl.
  destruct questionable; split; congruence.
Qed.

End Aggregate.

Lemma verify_nfts_verified_iff_none_questionable_witness :
  exists r t',
    _verify_nfts sample_clock [plain_nft] None 0 = Ok (r, t')
    /\ (is_verified r = true <-> questionable_nfts r = []).
Proof.
  assert (Hrun : _verify_nfts sample_clock [plain_nft] None 0
                 = Ok ({| average_risk_score := Qmake 0 1;
                          questionable_nfts := [];
                          is_verified := true;
                          verification_timestamp := "2026-11-04T12:00:00" |},
                       1%nat))
    by (vm_compute; reflexivity).
  eexists _, _. split; [ exact Hrun | ].
  exact (proj2 (verify_nfts_verified_iff_none_questionable sample_clock)
           _ _ _ _ _ Hrun).
Defined.

(** ** Scoring a collection *)

Section Collection.

Context {DT : DateTimeLib}.
Variable clock : nat -> datetime.

Lemma account_age_check_Ok (tx_history : option (list dict)) (t : nat)
    (age : Z * list string * nat) :
  account_age_check clock tx_history t = Ok age ->
  age.1 = (25, ["NEW_CREATOR_ACCOUNT"]) \/ age.1 = (0, []).
Proof.
  unfold account_age_check. destruct tx_history as [ [ | tx0 rest ] | ].
  - intros H. injection H as <-. now right.
  - intros H.
    apply bind_Ok in H. destruct H as (found & _ & H).
    apply bind_Ok in H. destruct H as (created & _ & H).
    apply bind_Ok in H. destruct H as (days & _ & H).
    destruct (days <? 30); injection H as <-; [ now left | now right ].
  - intros H. injection H as <-. now right.
Qed.

Lemma account_age_check_absent (tx_history : option (list dict)) (t : nat) :
  tx_history = None \/ tx_history = Some [] ->
  account_age_check clock tx_history t = Ok (0, [], t).
Proof. intros [-> | ->]; reflexivity. Qed.

Lemma supply_check_Ok (collection_data : dict) (supply : Z * list string) :
  supply_check collection_data = Ok supply ->
  supply = (50, ["ZERO_SUPPLY"]) \/ supply = (15, ["VERY_LOW_SUPPLY"])
  \/ supply = (0, []).
Proof.
  unfold supply_check.
  destruct (py_eq (default (VInt 0) (collection_data !! "supply")) (VInt 0)).
  - intros H. injection H as <-. now left.
  - intros H. apply bind_Ok in H. destruct H as (low & _ & H).
    destruct low; injection H as <-; [ right; now left | right; now right ].
Qed.

Lemma supply_check_missing (collection_data : dict) :
  collection_data !! "supply" = None ->
  supply_check collection_data = Ok (50, ["ZERO_SUPPLY"]).
Proof. intros Hnone. unfold supply_check. now rewrite Hnone. Qed.

Lemma metadata_check_cases (collection_data : dict) :
  metadata_check collection_data = (30, ["INCOMPLETE_METADATA"])
  \/ metadata_check collection_data = (0, []).
Proof.
  unfold metadata_check.
  destruct (negb (truthy (default VNone (collection_data !! "description")))
            || negb (truthy (default VNone (collection_data !! "uri"))));
    [ now left | now right ].
Qed.

(** The shape of every answer of [_verify_collection]. *)
Lemma verify_collection_Ok (collection_data : dict)
    (tx_history : option (list dict)) (t t' : nat) (r : CollectionVerification) :
  _verify_collection clock collection_data tx_history t = Ok (r, t') ->
  exists age supply,
    account_age_check clock tx_history t = Ok age
    /\ supply_check collection_data = Ok supply
    /\ cv_risk_score r = age.1.1 + supply.1 + (metadata_check collection_data).1
    /\ cv_risk_factors r
       = age.1.2 ++ supply.2 ++ (metadata_check collection_data).2
    /\ cv_is_high_risk r = (60 <=? cv_risk_score r)
    /\ t' = S age.2.
Proof.
  unfold _verify_collection. intros H.
  apply bind_Ok in H. destruct H as (age & Hage & H).
  apply bind_Ok in H. destruct H as (supply & Hsupply & H).
  injection H as <- <-. exists age, supply. simpl. auto 10.
Qed.

(** C5: every collection whose supply equals 0 and whose description and
    uri are falsy (null, missing, empty), scored with an empty or absent
    transaction history, gets exactly 80, the factors ZERO_SUPPLY and
    INCOMPLETE_METADATA without NEW_CREATOR_ACCOUNT, and is high-risk. *)
Theorem zero_supply_without_metadata_scores_80 (collection_data : dict)
    (supply : value) (tx_history : option (list dict)) (t : nat) :
  collection_data !! "supply" = Some supply ->
  py_eq supply (VInt 0) = true ->
  truthy (default VNone (collection_data !! "description")) = false ->
  truthy (default VNone (collection_data !! "uri")) = false ->
  tx_history = Some [] \/ tx_history = None ->
  _verify_collection clock collection_data tx_history t
  = Ok ({| cv_risk_score := 80;
           cv_risk_factors := ["ZERO_SUPPLY"; "INCOMPLETE_METADATA"];
           cv_is_high_risk := true;
           cv_is_verified := false;
           cv_verification_timestamp := isoformat (clock t) |}, S t)
  /\ ~ In "NEW_CREATOR_ACCOUNT" ["ZERO_SUPPLY"; "INCOMPLETE_METADATA"].
Proof.
  intros Hsupply Hzero Hdescription Huri Hhistory. split.
  - unfold _verify_collection, supply_check, metadata_check.
    rewrite Hsupply, Hdescription, Huri. cbn [default from_option id].
    rewrite Hzero. destruct Hhistory as [-> | ->]; reflexivity.
  - intros [H | [H | []]]; discriminate H.
Qed.

(** C4: when the transaction that [min] selects carries a timestamp string
    that [fromisoformat] rejects, [_verify_collection] raises the
    [ValueError]; nothing in the function catches it. *)
Theorem malformed_timestamp_propagates (collection_data : dict)
    (tx0 : dict) (rest : list dict) (t t1 : nat) (oldest : dict) (s : string) :
  oldest_transaction clock tx0 rest t = Ok (oldest, t1) ->
  oldest !! "timestamp" = Some (VStr s) ->
  fromisoformat s = None ->
  _verify_collection clock collection_data (Some (tx0 :: rest)) t
  = Raise ValueError.
Proof.
  intros Hmin Hstamp Hparse.
  unfold _verify_collection, account_age_check.
  rewrite Hmin. cbn [bind fst snd]. rewrite Hstamp. simpl.
  rewrite Hparse. reflexivity.
Qed.

(** C7: a returned risk score is never negative, for a single NFT and for
    a collection alike. *)
Theorem risk_score_nonnegative :
  (forall nft tx_history r,
      _analyze_nft_risk nft tx_history = Ok r -> 0 <= risk_score r)
  /\ (forall collection_data tx_history t r t',
         _verify_collection clock collection_data tx_history t = Ok (r, t') ->
         0 <= cv_risk_score r).
Proof.
  split.
  - intros nft tx_history r H.
    destruct (analyze_nft_risk_Ok _ _ _ H) as (complete & c & _ & _ & -> & _).
    destruct complete; simpl; destruct (Z.ltb_spec 3 c); lia.
  - intros collection_data tx_history t r t' H.
    destruct (verify_collection_Ok _ _ _ _ _ H)
      as (age & supply & Hage & Hsupply & -> & _).
    destruct (account_age_check_Ok _ _ _ Hage) as [-> | ->];
      destruct (supply_check_Ok _ _ Hsupply) as [-> | [-> | ->]];
      destruct (metadata_check_cases collection_data) as [-> | ->];
      simpl; lia.
Qed.

(** C10: a collection without a [supply] key is scored as one with supply
    zero: ZERO_SUPPLY is among the factors, VERY_LOW_SUPPLY is not, and 50 is
    part of the score; without a transaction history the score is returned
    and is 50 plus the metadata part.  For every collection the two supply
    tags exclude each other. *)
Theorem missing_supply_counts_as_zero :
  (forall collection_data tx_history t r t',
      collection_data !! "supply" = None ->
      _verify_collection clock collection_data tx_history t = Ok (r, t') ->
      In "ZERO_SUPPLY" (cv_risk_factors r)
      /\ ~ In "VERY_LOW_SUPPLY" (cv_risk_factors r)
      /\ exists age,
           account_age_check clock tx_history t = Ok age
           /\ cv_risk_score r
              = age.1.1 + 50 + (metadata_check collection_data).1)
  /\ (forall collection_data tx_history t,
         collection_data !! "supply" = None ->
         tx_history = None \/ tx_history = Some [] ->
         exists r,
           _verify_collection clock collection_data tx_history t = Ok (r, S t)
           /\ cv_risk_score r = 50 + (metadata_check collection_data).1
           /\ In "ZERO_SUPPLY" (cv_risk_factors r))
  /\ (forall collection_data tx_history t r t',
         _verify_collection clock collection_data tx_history t = Ok (r, t') ->
         ~ (In "ZERO_SUPPLY" (cv_risk_factors r)
            /\ In "VERY_LOW_SUPPLY" (cv_risk_factors r))).
Proof.
  split; [ | split ].
  - intros collection_data tx_history t r t' Hnone H.
    destruct (verify_collection_Ok _ _ _ _ _ H)
      as (age & supply & Hage & Hsupply & Hscore & Hfactors & _).
    rewrite (supply_check_missing _ Hnone) in Hsupply.
    injection Hsupply as <-. rewrite Hfactors. split; [ | split ].
    + apply in_or_app. right. now left.
    + destruct (account_age_check_Ok _ _ _ Hage) as [-> | ->];
        destruct (metadata_check_cases collection_data) as [-> | ->];
        simpl; intuition discriminate.
    + exists age. split; [ exact Hage | exact Hscore ].
  - intros collection_data tx_history t Hnone Habsent.
    unfold _verify_collection.
    rewrite (account_age_check_absent _ t Habsent), (supply_check_missing _ Hnone).
    cbn [bind fst snd]. eexists. split; [ reflexivity | ].
    simpl. split; [ lia | now left ].
  - intros collection_data tx_history t r t' H.
    destruct (verify_collection_Ok _ _ _ _ _ H)
      as (age & supply & Hage & Hsupply & _ & -> & _).
    destruct (account_age_check_Ok _ _ _ Hage) as [-> | ->];
      destruct (supply_check_Ok _ _ Hsupply) as [-> | [-> | ->]];
      destruct (metadata_check_cases collection_data) as [-> | ->];
      simpl; intuition discriminate.
Qed.

End Collection.

Example young_creator_ex :
  _verify_collection sample_clock unsupplied_collection (Some recent_history) 0
  = Ok ({| cv_risk_score := 75;
           cv_risk_factors := ["NEW_CREATOR_ACCOUNT"; "ZERO_SUPPLY"];
           cv_is_high_risk := true;
           cv_is_verified := false;
           cv_verification_timestamp := "2026-11-04T12:00:02" |}, 3%nat).
Proof. vm_compute. reflexivity. Qed.

(** Supply read as the node API sends it, a string, is neither equal to 0
    nor comparable with 5. *)
Example supply_examples :
  supply_check (mk_dict [("supply", VInt 3)]) = Ok (15, ["VERY_LOW_SUPPLY"])
  /\ supply_check (mk_dict [("supply", VInt 5)]) = Ok (0, [])
  /\ supply_check (mk_dict [("supply", VBool false)]) = Ok (50, ["ZERO_SUPPLY"])
  /\ supply_check (mk_dict [("supply", VStr "100")]) = Raise TypeError
  /\ supply_check (mk_dict [("supply", VNone)]) = Raise TypeError.
Proof. repeat split; vm_compute; reflexivity. Qed.

(** [min] keeps the first of two equal keys and needs comparable keys. *)
Example oldest_transaction_examples :
  oldest_transaction sample_clock
    (tx_at "a" "2026-01-01T00:00:00")
    [tx_at "b" "2026-01-01T00:00:00"; tx_at "c" "2025-12-31T23:59:59"] 0
  = Ok (tx_at "c" "2025-12-31T23:59:59", 3%nat)
  /\ oldest_transaction sample_clock
       (tx_at "a" "2026-01-01T00:00:00") [tx_at "b" "2026-01-01T00:00:00"] 0
     = Ok (tx_at "a" "2026-01-01T00:00:00", 2%nat)
  /\ oldest_transaction sample_clock
       (tx_at "a" "2026-01-01T00:00:00")
       [mk_dict [("timestamp", VInt 1660000000)]] 0
     = Raise TypeError.
Proof. repeat split; vm_compute; reflexivity. Qed.

Lemma zero_supply_without_metadata_scores_80_witness :
  _verify_collection sample_clock empty_collection (Some []) 0
  = Ok ({| cv_risk_score := 80;
           cv_risk_factors := ["ZERO_SUPPLY"; "INCOMPLETE_METADATA"];
           cv_is_high_risk := true;
           cv_is_verified := false;
           cv_verification_timestamp := "2026-11-04T12:00:00" |}, 1%nat).
Proof.
  apply (proj1 (zero_supply_without_metadata_scores_80 sample_clock
                  empty_collection (VInt 0) (Some []) 0%nat
                  eq_refl eq_refl eq_refl eq_refl (or_introl eq_refl))).
Defined.

Lemma malformed_timestamp_propagates_witness :
  _verify_collection sample_clock empty_collection (Some malformed_history) 0
  = Raise ValueError.
Proof.
  apply (malformed_timestamp_propagates sample_clock empty_collection
           (tx_at "user_transaction" "tomorrow")
           [tx_at "user_transaction" "not-a-date"] 0 2
           (tx_at "user_transaction" "not-a-date") "not-a-date").
  - vm_compute. reflexivity.
  - vm_compute. reflexivity.
  - reflexivity.
Defined.

Lemma risk_score_nonnegative_witness :
  (exists r, _analyze_nft_risk plain_nft (Some five_transfers) = Ok r
             /\ 0 <= risk_score r)
  /\ (exists r t',
         _verify_collection sample_clock unsupplied_collection
           (Some recent_history) 0 = Ok (r, t')
         /\ 0 <= cv_risk_score r).
Proof.
  split.
  - assert (Hrun : _analyze_nft_risk plain_nft (Some five_transfers)
                   = Ok {| risk_score := 40;
                           risk_factors := ["HIGH_TRANSFER_VELOCITY"];
                           is_high_risk := false |})
      by (vm_compute; reflexivity).
    eexists. split; [ exact Hrun | ].
    exact (proj1 (risk_score_nonnegative sample_clock) _ _ _ Hrun).
  - eexists _, _. split; [ exact young_creator_ex | ].
    exact (proj2 (risk_score_nonnegative sample_clock) _ _ _ _ _ young_creator_ex).
Defined.

Lemma missing_supply_counts_as_zero_witness :
  (exists r t',
      _verify_collection sample_clock unsupplied_collection
        (Some recent_history) 0 = Ok (r, t')
      /\ In "ZERO_SUPPLY" (cv_risk_factors r)
      /\ ~ In "VERY_LOW_SUPPLY" (cv_risk_factors r))
  /\ (exists r,
         _verify_collection sample_clock unsupplied_collection None 0
         = Ok (r, 1%nat)
         /\ cv_risk_score r = 50).
Proof.
  assert (Hnone : unsupplied_collection !! "supply" = None) by reflexivity.
  destruct (missing_supply_counts_as_zero sample_clock) as (Hzero & Hreturns & _).
  split.
  - destruct (Hzero _ _ _ _ _ Hnone young_creator_ex) as (Hin & Hout & _).
    eexists _, _. split; [ exact young_creator_ex | ]. split; assumption.
  - destruct (Hreturns unsupplied_collection None 0%nat Hnone (or_introl eq_refl))
      as (r & Hrun & Hscore & _).
    exists r. split; [ exact Hrun | ]. rewrite Hscore. reflexivity.
Defined.

(** ** The owner report *)

Section OwnerPath.

Context {DT : DateTimeLib}.
Variable clock : nat -> datetime.

(** C2, as the code has it: for an address of the registry, a report built
    from a non-empty resource list carries [is_scammer = true]; when the
    resource fetch is absent or empty the early report is returned, and it
    has no [is_scammer] field. *)
Theorem owner_report_scammer_flag (self : NFTVerifier) (owner : string) (t : nat) :
  owner ∈ known_scammers self ->
  (forall r t',
      get_nft_data_by_owner clock self owner t = Ok (r, t') ->
      get_account_resources (aptos_api self) owner <> None ->
      get_account_resources (aptos_api self) owner <> Some [] ->
      report_is_scammer r = Some true)
  /\ (get_account_resources (aptos_api self) owner = None
      \/ get_account_resources (aptos_api self) owner = Some [] ->
      get_nft_data_by_owner clock self owner t
      = Ok (NoResources [] false "No resources found", t)
      /\ report_is_scammer (NoResources [] false "No resources found") = None).
Proof.
  intros Hmember. split.
  - intros r t' H Hsome Hnonempty. unfold get_nft_data_by_owner in H.
    destruct (get_account_resources (aptos_api self) owner)
      as [ [ | resource resources ] | ]; try congruence.
    apply bind_Ok in H. destruct H as (nfts & _ & H).
    apply bind_Ok in H. destruct H as (balances & _ & H).
    apply bind_Ok in H. destruct H as (activities & _ & H).
    apply bind_Ok in H. destruct H as (verification & _ & H).
    injection H as <- _. simpl.
    now rewrite (bool_decide_eq_true_2 _ Hmember).
  - intros Habsent. unfold get_nft_data_by_owner.
    destruct Habsent as [-> | ->]; split; reflexivity.
Qed.

End OwnerPath.

Example owner_report_ex :
  exists r,
    get_nft_data_by_owner sample_clock
      (verifier_with (fixed_api (Some [token_store; coin_store]) (Some [])))
      "0xbad" 0 = Ok (r, 1%nat)
    /\ match r with
       | AccountInfo owner nfts balances activities flag verification =>
           owner = "0xbad" /\ length nfts = 1%nat /\ length balances = 1%nat
           /\ activities = activities_init /\ flag = true
           /\ is_verified verification = true
       | NoResources _ _ _ => False
       end.
Proof. eexists. split; [ vm_compute; reflexivity | ]. repeat split. Qed.

(** C1: on an absent transaction history [_parse_account_activities] does
    not return the empty summary: the loop over [None] raises [TypeError],
    and with it the owner path fails when the resource fetch succeeded and
    the transaction fetch did not. *)
Theorem parse_activities_absent_raises :
  _parse_account_activities None = Raise TypeError
  /\ _parse_account_activities None <> Ok activities_init
  /\ get_nft_data_by_owner sample_clock
       (verifier_with (fixed_api (Some [token_store; coin_store]) None))
       "0xbad" 0
     = Raise TypeError.
Proof.
  split; [ reflexivity | ]. split; [ discriminate | ].
  vm_compute. reflexivity.
Qed.

Lemma owner_report_scammer_flag_witness :
  exists r t',
    get_nft_data_by_owner sample_clock
      (verifier_with (fixed_api (Some [token_store; coin_store]) (Some [])))
      "0xbad" 0 = Ok (r, t')
    /\ report_is_scammer r = Some true.
Proof.
  destruct owner_report_ex as (r & Hrun & _).
  exists r, 1%nat. split; [ exact Hrun | ].
  assert (Hmember : "0xbad" ∈ known_scammers
            (verifier_with (fixed_api (Some [token_store; coin_store]) (Some []))))
    by (simpl; apply elem_of_singleton_2; reflexivity).
  apply (proj1 (owner_report_scammer_flag sample_clock _ "0xbad" 0%nat Hmember)
           r 1%nat Hrun); simpl; congruence.
Defined.

(** C2, as stated, fails: a registered address whose resource fetch is
    absent gets a report without the [is_scammer] field. *)
Lemma flagged_as_stated_fails :
  ~ flagged_as_stated sample_clock (verifier_with (fixed_api None None)) "0xbad" 0.
Proof.
  intros Hclaim.
  assert (Hmember : "0xbad" ∈ known_scammers (verifier_with (fixed_api None None)))
    by (simpl; apply elem_of_singleton_2; reflexivity).
  assert (Hrun : get_nft_data_by_owner sample_clock
                   (verifier_with (fixed_api None None)) "0xbad" 0
                 = Ok (NoResources [] false "No resources found", 0%nat))
    by reflexivity.
  specialize (Hclaim Hmember _ _ Hrun). discriminate Hclaim.
Qed.

(** * Further properties of the code *)

(** ** Strings: prefixes, substrings, lower-casing and splitting *)

Lemma append_cons (c : ascii) (a b : string) :
  String c a +:+ b = String c (a +:+ b).
Proof. reflexivity. Qed.

Lemma append_nil_l (a : string) : EmptyString +:+ a = a.
Proof. reflexivity. Qed.

Ltac app_simpl := rewrite ?append_cons, ?append_nil_l in *.

Lemma append_assoc (a b c : string) : (a +:+ b) +:+ c = a +:+ (b +:+ c).
Proof.
  induction a as [ | x a IH ]; app_simpl; [ reflexivity | now rewrite IH ].
Qed.

Lemma append_nil_r (a : string) : a +:+ EmptyString = a.
Proof.
  induction a as [ | x a IH ]; app_simpl; [ reflexivity | now rewrite IH ].
Qed.

Lemma prefix_nil (y : string) : String.prefix EmptyString y = true.
Proof. destruct y; reflexivity. Qed.

Lemma prefix_iff (x y : string) :
  String.prefix x y = true <-> exists b, y = x +:+ b.
Proof.
  revert y. induction x as [ | c x IH ]; intros y.
  - rewrite prefix_nil. split; [ intros _; exists y; reflexivity | reflexivity ].
  - destruct y as [ | d y ]; simpl.
    { split; [ discriminate | intros [b Hb]; discriminate Hb ]. }
    destruct (ascii_dec c d) as [-> | Hne].
    + rewrite IH. split; intros [b Hb]; exists b.
      * app_simpl. now rewrite Hb.
      * app_simpl. now injection Hb.
    + split; [ discriminate | ].
      intros [b Hb]. app_simpl. injection Hb as -> _. now destruct Hne.
Qed.

Lemma contains_cons (x : string) (d : ascii) (y : string) :
  Str.contains x (String d y)
  = String.prefix x (String d y) || Str.contains x y.
Proof. reflexivity. Qed.

Lemma contains_nil (x : string) :
  Str.contains x EmptyString = String.prefix x EmptyString.
Proof. unfold Str.contains. now rewrite orb_false_r. Qed.

(** [needle in hay] holds exactly when [hay] is [needle] between two strings. *)
Lemma contains_iff (x y : string) :
  Str.contains x y = true <-> exists a b, y = a +:+ x +:+ b.
Proof.
  induction y as [ | d y IH ].
  - rewrite contains_nil, prefix_iff. split.
    + intros [b Hb]. exists EmptyString, b. exact Hb.
    + intros (a & b & Hab). destruct a; [ now exists b | discriminate Hab ].
  - rewrite contains_cons, orb_true_iff, prefix_iff, IH. split.
    + intros [[b Hb] | (a & b & Hab)].
      * exists EmptyString, b. exact Hb.
      * exists (String d a), b. app_simpl. now rewrite Hab.
    + intros (a & b & Hab). destruct a as [ | c a ].
      * left. now exists b.
      * right. app_simpl. injection Hab as _ Hab. now exists a, b.
Qed.

Lemma contains_false_iff (x y : string) :
  Str.contains x y = false <-> forall a b, y <> a +:+ x +:+ b.
Proof.
  rewrite <- not_true_iff_false, contains_iff. split.
  - intros Hno a b Hy. apply Hno. now exists a, b.
  - intros Hno (a & b & Hy). now apply (Hno a b).
Qed.

(** A substring of a substring is a substring. *)
Lemma contains_within (x p a b : string) :
  Str.contains x p = true -> Str.contains x (a +:+ p +:+ b) = true.
Proof.
  rewrite !contains_iff. intros (u & v & ->).
  exists (a +:+ u), (v +:+ b). now rewrite !append_assoc.
Qed.



Lemma rev_acc_append (s acc : string) :
  Str.rev_acc s acc = Str.rev_acc s EmptyString +:+ acc.
Proof.
  revert acc. induction s as [ | c s IH ]; intros acc; simpl; [ reflexivity | ].
  rewrite (IH (String c acc)), (IH (String c EmptyString)).
  now rewrite append_assoc.
Qed.

Lemma rev_acc_cons (c : ascii) (cur rest : string) :
  Str.rev_acc (String c cur) EmptyString +:+ rest
  = Str.rev_acc cur EmptyString +:+ String c rest.
Proof. simpl. rewrite rev_acc_append, append_assoc. reflexivity. Qed.

(** Every piece of a split lies inside the string that was split. *)
Lemma split_aux_within (sep s : string) (skip : nat) (cur p : string) :
  skip = O \/ cur = EmptyString ->
  In p (Str.split_aux sep s skip cur) ->
  exists a b, Str.rev_acc cur EmptyString +:+ s = a +:+ p +:+ b.
Proof.
  revert skip cur. induction s as [ | c s IH ]; intros skip cur Hinv.
  - cbn [Str.split_aux]. intros [<- | []]. exists EmptyString, EmptyString.
    app_simpl. reflexivity.
  - cbn [Str.split_aux]. destruct skip as [ | k ].
    + destruct (String.prefix sep (String c s)).
      * intros [<- | Hin].
        -- exists EmptyString, (String c s). reflexivity.
        -- destruct (IH _ _ (or_intror eq_refl) Hin) as (a & b & Hab).
           cbn [Str.rev_acc] in Hab. app_simpl.
           exists (Str.rev_acc cur EmptyString +:+ String c a), b.
           rewrite append_assoc. app_simpl. now rewrite Hab.
      * intros Hin. destruct (IH _ _ (or_introl eq_refl) Hin) as (a & b & Hab).
        exists a, b. now rewrite <- rev_acc_cons.
    + destruct Hinv as [Hskip | ->]; [ discriminate Hskip | ].
      intros Hin. destruct (IH _ _ (or_intror eq_refl) Hin) as (a & b & Hab).
      cbn [Str.rev_acc] in *. app_simpl. exists (String c a), b.
      app_simpl. now rewrite Hab.
Qed.

Lemma split_within (sep s p : string) :
  In p (Str.split sep s) -> exists a b, s = a +:+ p +:+ b.
Proof. intros Hin. exact (split_aux_within sep s O EmptyString p (or_introl eq_refl) Hin). Qed.

(** What a piece contains, the split string contains. *)
Lemma split_piece_contains (sep s p x : string) :
  In p (Str.split sep s) -> Str.contains x p = true -> Str.contains x s = true.
Proof.
  intros Hin Hx. destruct (split_within _ _ _ Hin) as (a & b & ->).
  now apply contains_within.
Qed.

Lemma append_snoc_inv (a b r : string) (c : ascii) :
  a +:+ b = r +:+ String c EmptyString -> b <> EmptyString ->
  exists b0, b = b0 +:+ String c EmptyString /\ r = a +:+ b0.
Proof.
  revert r. induction a as [ | x a IH ]; intros r Heq Hb; app_simpl.
  - exists r. split; [ exact Heq | reflexivity ].
  - destruct r as [ | y r ]; app_simpl.
    + injection Heq as _ Heq. destruct a; app_simpl; [ | discriminate Heq ].
      now destruct Hb.
    + injection Heq as -> Heq. destruct (IH r Heq Hb) as (b0 & -> & ->).
      exists b0. split; reflexivity.
Qed.

(** No piece of a split contains the separator. *)
Lemma split_aux_no_sep (sep s : string) (skip : nat) (cur : string) :
  sep <> EmptyString ->
  skip = O \/ cur = EmptyString ->
  (forall a b, Str.rev_acc cur EmptyString = a +:+ b -> b <> EmptyString ->
               String.prefix sep (b +:+ s) = false) ->
  Forall (fun p => Str.contains sep p = false) (Str.split_aux sep s skip cur).
Proof.
  intros Hsep. revert skip cur.
  assert (Hpiece : forall cur0 s0,
    (forall a b, Str.rev_acc cur0 EmptyString = a +:+ b -> b <> EmptyString ->
                 String.prefix sep (b +:+ s0) = false) ->
    Str.contains sep (Str.rev_acc cur0 EmptyString) = false).
  { intros cur0 s0 Hinv. apply contains_false_iff. intros a b Hab.
    assert (Hne : sep +:+ b <> EmptyString)
      by (destruct sep; [ now destruct Hsep | discriminate ]).
    pose proof (Hinv a (sep +:+ b) Hab Hne) as Hfalse.
    rewrite append_assoc in Hfalse.
    assert (Htrue : String.prefix sep (sep +:+ b +:+ s0) = true)
      by (apply prefix_iff; eauto).
    congruence. }
  induction s as [ | c s IH ]; intros skip cur Hskip Hinv; cbn [Str.split_aux].
  - constructor; [ | constructor ]. exact (Hpiece cur EmptyString Hinv).
  - destruct skip as [ | k ].
    + destruct (String.prefix sep (String c s)) eqn:Hmatch.
      * constructor; [ exact (Hpiece cur (String c s) Hinv) | ].
        apply IH; [ now right | ].
        intros a b Hab Hb. cbn [Str.rev_acc] in Hab.
        destruct a; app_simpl; [ now destruct Hb | discriminate Hab ].
      * apply IH; [ now left | ].
        intros a b Hab Hb.
        assert (Hrev : Str.rev_acc (String c cur) EmptyString
                       = Str.rev_acc cur EmptyString +:+ String c EmptyString).
        { rewrite <- (append_nil_r (Str.rev_acc (String c cur) EmptyString)).
          now rewrite rev_acc_cons. }
        rewrite Hrev in Hab.
        destruct (append_snoc_inv _ _ _ _ (eq_sym Hab) Hb) as (b0 & -> & Hcur).
        rewrite append_assoc. app_simpl.
        destruct b0 as [ | y b0 ]; app_simpl; [ exact Hmatch | ].
        apply (Hinv a (String y b0) Hcur). discriminate.
    + destruct Hskip as [Hk | ->]; [ discriminate Hk | ].
      apply IH; [ now right | ].
      intros a b Hab Hb. cbn [Str.rev_acc] in Hab.
      destruct a; app_simpl; [ now destruct Hb | discriminate Hab ].
Qed.

Lemma split_no_sep (sep s p : string) :
  sep <> EmptyString -> In p (Str.split sep s) -> Str.contains sep p = false.
Proof.
  intros Hsep Hin.
  assert (Hall : Forall (fun p => Str.contains sep p = false) (Str.split sep s)).
  { apply split_aux_no_sep; [ exact Hsep | now left | ].
    intros a b Hab Hb. cbn [Str.rev_acc] in Hab.
    destruct a; app_simpl; [ now destruct Hb | discriminate Hab ]. }
  exact (proj1 (List.Forall_forall _ _) Hall p Hin).
Qed.

(** A string without the separator is its own single piece. *)
Lemma split_aux_absent (sep s cur : string) :
  (forall a b, s <> a +:+ sep +:+ b) ->
  Str.split_aux sep s O cur = [Str.rev_acc cur EmptyString +:+ s].
Proof.
  revert cur. induction s as [ | c s IH ]; intros cur Hno; cbn [Str.split_aux].
  - now rewrite append_nil_r.
  - destruct (String.prefix sep (String c s)) eqn:Hmatch.
    + apply prefix_iff in Hmatch. destruct Hmatch as [b Hb].
      now destruct (Hno EmptyString b).
    + rewrite IH; [ now rewrite rev_acc_cons | ].
      intros a b Hab. apply (Hno (String c a) b). app_simpl. now rewrite Hab.
Qed.

Lemma split_absent (sep s : string) :
  Str.contains sep s = false -> Str.split sep s = [s].
Proof.
  intros Hno. unfold Str.split. rewrite split_aux_absent; [ reflexivity | ].
  now apply contains_false_iff.
Qed.

Lemma split_nonempty (sep s : string) (skip : nat) (cur : string) :
  Str.split_aux sep s skip cur <> [].
Proof.
  revert skip cur. induction s as [ | c s IH ]; intros skip cur; cbn [Str.split_aux].
  - discriminate.
  - destruct skip; [ | apply IH ].
    destruct (String.prefix sep (String c s)); [ discriminate | apply IH ].
Qed.

Lemma contains_nil_l (s : string) : Str.contains EmptyString s = true.
Proof. apply contains_iff. exists EmptyString, s. reflexivity. Qed.

Lemma contains_refl (s : string) : Str.contains s s = true.
Proof.
  apply contains_iff. exists EmptyString, EmptyString.
  app_simpl. now rewrite append_nil_r.
Qed.

Lemma contains_trans (a b c : string) :
  Str.contains a b = true -> Str.contains b c = true -> Str.contains a c = true.
Proof.
  intros Hab Hbc. apply contains_iff in Hbc. destruct Hbc as (u & v & ->).
  now apply contains_within.
Qed.

Lemma last_In {A : Type} (l : list A) (d : A) : l <> [] -> In (List.last l d) l.
Proof.
  induction l as [ | x l IH ]; [ congruence | ]. intros _.
  destruct l as [ | y l ]; [ now left | ].
  right. apply IH. discriminate.
Qed.

Lemma hd_In {A : Type} (l : list A) (d : A) : l <> [] -> In (hd d l) l.
Proof. destruct l; [ congruence | intros _; now left ]. Qed.

(** Pieces picked with [nth], [hd] or [last] lie inside the split string. *)
Lemma nth_split_contains (sep s : string) (n : nat) :
  Str.contains (nth n (Str.split sep s) EmptyString) s = true.
Proof.
  destruct (nth_in_or_default n (Str.split sep s) EmptyString) as [Hin | ->].
  - destruct (split_within _ _ _ Hin) as (a & b & Hs).
    apply contains_iff. eauto.
  - apply contains_nil_l.
Qed.

Lemma hd_split_contains (sep s : string) :
  Str.contains (hd EmptyString (Str.split sep s)) s = true.
Proof.
  pose proof (hd_In (Str.split sep s) EmptyString (split_nonempty _ _ _ _)) as Hin.
  destruct (split_within _ _ _ Hin) as (a & b & Hs). apply contains_iff. eauto.
Qed.

Lemma last_split_contains (sep s : string) :
  Str.contains (List.last (Str.split sep s) EmptyString) s = true.
Proof.
  pose proof (last_In (Str.split sep s) EmptyString (split_nonempty _ _ _ _)) as Hin.
  destruct (split_within _ _ _ Hin) as (a & b & Hs). apply contains_iff. eauto.
Qed.

Lemma last_split_no_sep (sep s : string) :
  sep <> EmptyString ->
  Str.contains sep (List.last (Str.split sep s) EmptyString) = false.
Proof.
  intros Hsep. apply (split_no_sep sep s); [ exact Hsep | ].
  apply last_In, split_nonempty.
Qed.

(** ** Token names *)

Lemma token_name_no_separator (resource_type : string) :
  Str.contains "::" (_extract_token_name resource_type) = false.
Proof.
  unfold _extract_token_name.
  set (inside := hd EmptyString
                   (Str.split ">" (nth 1 (Str.split "<" resource_type) EmptyString))).
  destruct (Str.contains "<" resource_type && Str.contains ">" resource_type);
    [ destruct (Str.contains "::" inside) | ];
    try (apply last_split_no_sep; discriminate).
  all: destruct (Nat.leb_spec 3 (length (Str.split "::" resource_type))) as [Hlen | Hlen];
    try (apply last_split_no_sep; discriminate).
  all: apply not_true_iff_false; intros Hname;
    assert (Hpart : Str.contains "::" (nth 2 (Str.split "::" resource_type) EmptyString) = true)
      by (eapply contains_trans; [ exact Hname | apply hd_split_contains ]);
    rewrite (split_no_sep "::" resource_type) in Hpart;
    [ discriminate Hpart | discriminate | apply nth_In; lia ].
Qed.

Lemma token_name_of_plain (resource_type : string) :
  Str.contains "::" resource_type = false ->
  _extract_token_name resource_type = resource_type.
Proof.
  intros Hplain. unfold _extract_token_name.
  set (inside := hd EmptyString
                   (Str.split ">" (nth 1 (Str.split "<" resource_type) EmptyString))).
  assert (Hinside : Str.contains "::" inside = false).
  { apply not_true_iff_false. intros Hin.
    assert (Str.contains "::" resource_type = true); [ | congruence ].
    eapply contains_trans; [ exact Hin | ].
    eapply contains_trans; [ apply hd_split_contains | apply nth_split_contains ]. }
  rewrite Hinside, (split_absent _ _ Hplain).
  destruct (Str.contains "<" resource_type && Str.contains ">" resource_type);
    reflexivity.
Qed.

(** X1: the token name is cut out of the resource type and never contains
    the path separator. *)
Theorem token_name_is_segment (resource_type : string) :
  Str.contains (_extract_token_name resource_type) resource_type = true
  /\ Str.contains "::" (_extract_token_name resource_type) = false.
Proof.
  split; [ | apply token_name_no_separator ].
  unfold _extract_token_name.
  set (inside := hd EmptyString
                   (Str.split ">" (nth 1 (Str.split "<" resource_type) EmptyString))).
  assert (Hinside : Str.contains inside resource_type = true).
  { eapply contains_trans; [ apply hd_split_contains | apply nth_split_contains ]. }
  destruct (Str.contains "<" resource_type && Str.contains ">" resource_type);
    [ destruct (Str.contains "::" inside) | ].
  1: eapply contains_trans; [ apply last_split_contains | exact Hinside ].
  all: destruct (3 <=? length (Str.split "::" resource_type))%nat;
    try apply last_split_contains.
  all: eapply contains_trans; [ apply hd_split_contains | apply nth_split_contains ].
Qed.

(** X2: the strings [_extract_token_name] leaves unchanged are exactly those
    without a path separator, so extracting twice is extracting once. *)
Theorem token_name_fixed_points (resource_type : string) :
  (_extract_token_name resource_type = resource_type
   <-> Str.contains "::" resource_type = false)
  /\ _extract_token_name (_extract_token_name resource_type)
     = _extract_token_name resource_type.
Proof.
  split; [ split | ].
  - intros Hfix. rewrite <- Hfix. apply token_name_no_separator.
  - apply token_name_of_plain.
  - apply token_name_of_plain, token_name_no_separator.
Qed.

Example token_name_examples :
  _extract_token_name "0x3::token::TokenStore" = "TokenStore"
  /\ _extract_token_name "0x1::coin::CoinStore<0x1::a::B<0x2::c::D>>" = "B"
  /\ _extract_token_name "0x1::coin" = "coin"
  /\ _extract_token_name "Wrapper<Plain>" = "Wrapper<Plain>"
  /\ _extract_token_name EmptyString = EmptyString.
Proof. repeat split; vm_compute; reflexivity. Qed.

(** ** Account activities in closed form *)

Lemma typed_lower (d : dict) :
  typed d -> py_lower (default (VStr EmptyString) (d !! "type")) = Ok (lowered_type d).
Proof. intros [s Hs]. unfold lowered_type. now rewrite Hs. Qed.

Lemma py_lower_Ok (d : dict) (s : string) :
  py_lower (default (VStr EmptyString) (d !! "type")) = Ok s ->
  typed d /\ s = lowered_type d.
Proof.
  unfold typed, lowered_type.
  destruct (default (VStr EmptyString) (d !! "type")); simpl; try discriminate.
  intros H. injection H as <-. eauto.
Qed.

Lemma event_lower (e : value) :
  wf_event e ->
  (t <- py_get e "type" (VStr EmptyString) ;; py_lower t) = Ok (event_type e).
Proof. intros (d & -> & Hd). simpl. now apply typed_lower. Qed.

Lemma event_lower_Ok (e : value) (s : string) :
  (t <- py_get e "type" (VStr EmptyString) ;; py_lower t) = Ok s ->
  wf_event e /\ s = event_type e.
Proof.
  destruct e as [ | | | | | d ]; simpl; try discriminate.
  intros H. destruct (py_lower_Ok _ _ H) as [Hd ->].
  split; [ exists d; auto | reflexivity ].
Qed.

Lemma any_event_type_cons (kw : string) (e : value) (es : list value) :
  any_event_type kw (e :: es)
  = (s <- (t <- py_get e "type" (VStr EmptyString) ;; py_lower t) ;;
     if Str.contains kw s then Ok true else any_event_type kw es).
Proof. simpl. destruct (py_get e "type" (VStr EmptyString)); reflexivity. Qed.

Lemma count_transfers_cons (e : value) (es : list value) (acc : NftTransfers) :
  count_transfers (e :: es) acc
  = (s <- (t <- py_get e "type" (VStr EmptyString) ;; py_lower t) ;;
     count_transfers es
       {| deposit_count := deposit_count acc + b2z (Str.contains "deposit" s);
          withdraw_count := withdraw_count acc + b2z (Str.contains "withdraw" s) |}).
Proof. simpl. destruct (py_get e "type" (VStr EmptyString)); reflexivity. Qed.

Lemma property_events_cons (e : value) (es : list value) :
  property_events (e :: es)
  = (s <- (t <- py_get e "type" (VStr EmptyString) ;; py_lower t) ;;
     rest <- property_events es ;;
     Ok (if Str.contains "property" s then e :: rest else rest)).
Proof. simpl. destruct (py_get e "type" (VStr EmptyString)); reflexivity. Qed.

Lemma any_event_type_wf (kw : string) (es : list value) :
  Forall wf_event es ->
  any_event_type kw es = Ok (existsb (Str.contains kw) (map event_type es)).
Proof.
  induction 1 as [ | e es He _ IH ]; [ reflexivity | ].
  rewrite any_event_type_cons, (event_lower e He). cbn [bind map existsb].
  destruct (Str.contains kw (event_type e)); [ reflexivity | exact IH ].
Qed.

Lemma count_kw_cons (kw s : string) (l : list string) :
  count_kw kw (s :: l) = b2z (Str.contains kw s) + count_kw kw l.
Proof.
  unfold count_kw. cbn [List.filter].
  destruct (Str.contains kw s); cbn [length b2z]; lia.
Qed.

Lemma count_kw_app (kw : string) (l1 l2 : list string) :
  count_kw kw (l1 ++ l2) = count_kw kw l1 + count_kw kw l2.
Proof.
  unfold count_kw. rewrite List.filter_app, length_app. lia.
Qed.

Lemma count_kw_nonneg (kw : string) (l : list string) : 0 <= count_kw kw l.
Proof. unfold count_kw. lia. Qed.

Lemma count_transfers_wf (es : list value) (acc : NftTransfers) :
  Forall wf_event es ->
  count_transfers es acc
  = Ok {| deposit_count := deposit_count acc + count_kw "deposit" (map event_type es);
          withdraw_count := withdraw_count acc + count_kw "withdraw" (map event_type es) |}.
Proof.
  intros Hwf. revert acc. induction Hwf as [ | e es He _ IH ]; intros acc.
  - cbn [count_transfers map]. unfold count_kw. cbn. rewrite !Z.add_0_r.
    now destruct acc.
  - rewrite count_transfers_cons, (event_lower e He). cbn [bind map].
    rewrite IH. cbn [deposit_count withdraw_count].
    rewrite !count_kw_cons. do 2 f_equal; lia.
Qed.

Lemma count_transfers_Ok (es : list value) (acc acc' : NftTransfers) :
  count_transfers es acc = Ok acc' -> Forall wf_event es.
Proof.
  revert acc. induction es as [ | e es IH ]; intros acc H; [ constructor | ].
  rewrite count_transfers_cons in H.
  apply bind_Ok in H. destruct H as (s & Hs & H).
  constructor; [ exact (proj1 (event_lower_Ok _ _ Hs)) | exact (IH _ H) ].
Qed.

Lemma property_events_wf (es : list value) :
  Forall wf_event es ->
  exists props, property_events es = Ok props
                /\ Z.of_nat (length props) = count_kw "property" (map event_type es).
Proof.
  induction 1 as [ | e es He _ (props & Hprops & Hlen) ].
  - exists []. split; reflexivity.
  - rewrite property_events_cons, (event_lower e He), Hprops. cbn [bind map].
    eexists. split; [ reflexivity | ].
    rewrite count_kw_cons.
    destruct (Str.contains "property" (event_type e)); cbn [length b2z]; lia.
Qed.

Lemma type_or_event_wf (kw : string) (tx : dict) :
  wf_tx tx ->
  type_or_event kw (lowered_type tx) (default (VList []) (tx !! "events"))
  = Ok (tx_mentions kw tx).
Proof.
  intros (_ & es & Hes & Hwf). unfold type_or_event, tx_mentions, event_types.
  rewrite Hes. cbn [bind].
  destruct (Str.contains kw (lowered_type tx)); [ reflexivity | ].
  now rewrite (any_event_type_wf kw es Hwf).
Qed.

Lemma activities_step_wf (acc : Activities) (tx : dict) :
  wf_tx tx ->
  activities_step acc tx
  = Ok {| nft_staking := nft_staking acc || tx_mentions "stake" tx;
          token_swaps :=
            {| swap_count := swap_count (token_swaps acc) + b2z (tx_mentions "swap" tx);
               listing_count :=
                 listing_count (token_swaps acc) + b2z (tx_mentions "list" tx) |};
          nft_transfers :=
            {| deposit_count :=
                 deposit_count (nft_transfers acc) + count_kw "deposit" (event_types tx);
               withdraw_count :=
                 withdraw_count (nft_transfers acc)
                 + count_kw "withdraw" (event_types tx) |};
          property_modifications :=
            property_modifications acc + count_kw "property" (event_types tx);
          recent_transactions :=
            if (length (recent_transactions acc) <? 5)%nat
            then recent_transactions acc ++ [preview tx]
            else recent_transactions acc |}.
Proof.
  intros Hwf. pose proof Hwf as (Hty & es & Hes & Hevents).
  unfold activities_step. rewrite (typed_lower tx Hty). cbn [bind].
  rewrite !(type_or_event_wf _ tx Hwf). cbn [bind].
  rewrite Hes. cbn [bind]. rewrite (count_transfers_wf es _ Hevents). cbn [bind].
  destruct (property_events_wf es Hevents) as (props & -> & Hlen). cbn [bind].
  unfold event_types. rewrite Hes, Hlen. reflexivity.
Qed.

Lemma activities_step_Ok (acc acc' : Activities) (tx : dict) :
  activities_step acc tx = Ok acc' -> wf_tx tx.
Proof.
  unfold activities_step. intros H.
  apply bind_Ok in H. destruct H as (tx_type & Hty & H).
  apply bind_Ok in H. destruct H as (stake & _ & H).
  apply bind_Ok in H. destruct H as (swap & _ & H).
  apply bind_Ok in H. destruct H as (listing & _ & H).
  apply bind_Ok in H. destruct H as (es & Hes & H).
  apply bind_Ok in H. destruct H as (transfers & Htransfers & _).
  split; [ exact (proj1 (py_lower_Ok _ _ Hty)) | ].
  exists es. split; [ exact Hes | exact (count_transfers_Ok _ _ _ Htransfers) ].
Qed.

Lemma events_mentioning_cons (kw : string) (tx : dict) (txs : list dict) :
  events_mentioning kw (tx :: txs)
  = count_kw kw (event_types tx) + events_mentioning kw txs.
Proof. unfold events_mentioning. cbn [map concat]. apply count_kw_app. Qed.

Lemma count_filter_cons {A : Type} (f : A -> bool) (x : A) (l : list A) :
  Z.of_nat (length (List.filter f (x :: l)))
  = b2z (f x) + Z.of_nat (length (List.filter f l)).
Proof. cbn [List.filter]. destruct (f x); cbn [length b2z]; lia. Qed.

Lemma firstn_5_step {A : Type} (acc rest : list A) (x : A) :
  (length acc <= 5)%nat ->
  firstn 5 ((if (length acc <? 5)%nat then acc ++ [x] else acc) ++ rest)
  = firstn 5 (acc ++ x :: rest).
Proof.
  intros Hle. destruct (Nat.ltb_spec (length acc) 5) as [Hlt | Hge].
  - now rewrite <- app_assoc.
  - assert (Hlen : length acc = 5%nat) by lia.
    rewrite !firstn_app, Hlen. cbn [Nat.sub firstn]. reflexivity.
Qed.

(** From any summary whose preview holds at most five entries, the loop
    reaches the closed form. *)
Lemma activities_loop_wf (txs : list dict) (acc : Activities) :
  Forall wf_tx txs ->
  (length (recent_transactions acc) <= 5)%nat ->
  activities_loop txs acc = Ok (activities_after acc txs).
Proof.
  intros Hwf. revert acc. induction Hwf as [ | tx txs Htx _ IH ]; intros acc Hlen.
  - cbn [activities_loop]. f_equal. unfold activities_after, events_mentioning, count_kw.
    cbn [existsb List.filter length map concat Z.of_nat].
    rewrite orb_false_r, !Z.add_0_r, app_nil_r, firstn_all2 by exact Hlen.
    destruct acc as [? [? ?] [? ?] ? ?]. reflexivity.
  - cbn [activities_loop]. rewrite (activities_step_wf acc tx Htx). cbn [bind].
    rewrite IH.
    + f_equal. unfold activities_after.
      cbn [nft_staking token_swaps nft_transfers property_modifications
           recent_transactions swap_count listing_count deposit_count
           withdraw_count existsb map].
      rewrite !events_mentioning_cons, !count_filter_cons, <- !Z.add_assoc,
        <- orb_assoc, (firstn_5_step _ _ _ Hlen).
      reflexivity.
    + cbn [recent_transactions].
      destruct (Nat.ltb_spec (length (recent_transactions acc)) 5);
        [ rewrite length_app; cbn [length]; lia | exact Hlen ].
Qed.

Lemma activities_after_init (txs : list dict) :
  activities_after activities_init txs = activity_summary txs.
Proof.
  unfold activities_after, activity_summary, activities_init.
  cbn [nft_staking token_swaps nft_transfers property_modifications
       recent_transactions swap_count listing_count deposit_count
       withdraw_count orb app].
  rewrite !Z.add_0_l, List.firstn_map. reflexivity.
Qed.

Lemma activities_loop_Ok (txs : list dict) (acc acc' : Activities) :
  activities_loop txs acc = Ok acc' -> Forall wf_tx txs.
Proof.
  revert acc. induction txs as [ | tx txs IH ]; intros acc H; [ constructor | ].
  cbn [activities_loop] in H. apply bind_Ok in H. destruct H as (mid & Hstep & H).
  constructor; [ exact (activities_step_Ok _ _ _ Hstep) | exact (IH _ H) ].
Qed.

(** X3: on a history whose transaction and event types are ASCII strings,
    [_parse_account_activities] returns exactly when the transactions and
    events are well formed, and then the summary is the closed form: staking
    when some transaction mentions "stake", swaps and listings counted per
    transaction, deposits, withdrawals and property changes counted per
    event, and a preview of the first five transactions. *)
Theorem parse_activities_closed_form (txs : list dict) :
  forallb ascii_tx txs = true ->
  (Forall wf_tx txs ->
   _parse_account_activities (Some txs) = Ok (activity_summary txs))
  /\ (forall activities,
        _parse_account_activities (Some txs) = Ok activities ->
        Forall wf_tx txs /\ activities = activity_summary txs).
Proof.
  intros _.
  assert (Hreturns : Forall wf_tx txs ->
            _parse_account_activities (Some txs) = Ok (activity_summary txs)).
  { intros Hwf. unfold _parse_account_activities.
    rewrite (activities_loop_wf txs activities_init Hwf);
      [ now rewrite activities_after_init | cbn; lia ]. }
  split; [ exact Hreturns | ].
  intros activities H.
  assert (Hwf : Forall wf_tx txs) by exact (activities_loop_Ok _ _ _ H).
  split; [ exact Hwf | ]. rewrite (Hreturns Hwf) in H. now injection H.
Qed.

(** X4: whatever [_parse_account_activities] returns, the preview holds the
    first transactions, five at most, and no counter exceeds what it
    counts: swaps and listings the transactions, the others the events. *)
Theorem activity_summary_bounds (txs : list dict) (activities : Activities) :
  _parse_account_activities (Some txs) = Ok activities ->
  length (recent_transactions activities) = Nat.min 5 (length txs)
  /\ recent_transactions activities = map preview (firstn 5 txs)
  /\ 0 <= swap_count (token_swaps activities) <= Z.of_nat (length txs)
  /\ 0 <= listing_count (token_swaps activities) <= Z.of_nat (length txs)
  /\ 0 <= deposit_count (nft_transfers activities)
          <= Z.of_nat (length (concat (map event_types txs)))
  /\ 0 <= withdraw_count (nft_transfers activities)
          <= Z.of_nat (length (concat (map event_types txs)))
  /\ 0 <= property_modifications activities
          <= Z.of_nat (length (concat (map event_types txs))).
Proof.
  intros H. pose proof (activities_loop_Ok _ _ _ H) as Hwf.
  unfold _parse_account_activities in H.
  rewrite (activities_loop_wf txs activities_init Hwf), activities_after_init in H
    by (cbn; lia).
  injection H as <-. unfold activity_summary, events_mentioning, count_kw.
  cbn [recent_transactions token_swaps nft_transfers property_modifications
       swap_count listing_count deposit_count withdraw_count].
  rewrite length_map, length_firstn.
  pose proof (List.filter_length_le (tx_mentions "swap") txs).
  pose proof (List.filter_length_le (tx_mentions "list") txs).
  pose proof (List.filter_length_le (Str.contains "deposit") (concat (map event_types txs))).
  pose proof (List.filter_length_le (Str.contains "withdraw") (concat (map event_types txs))).
  pose proof (List.filter_length_le (Str.contains "property") (concat (map event_types txs))).
  repeat split; try reflexivity; lia.
Qed.

(** ** Scoring a single NFT: thresholds and independence *)

Lemma transfer_count_any_nft (txs : list dict) (nft1 nft2 : dict) :
  transfer_count txs nft1 = transfer_count txs nft2.
Proof. induction txs as [ | tx txs IH ]; [ reflexivity | ]. simpl. now rewrite IH. Qed.

(** X5: the assessment depends on the NFT through its metadata verdict
    alone: two NFTs with the same verdict get the same assessment from any
    history, since no transfer is matched against the NFT. *)
Theorem risk_ignores_nft_identity (nft1 nft2 : dict)
    (tx_history : option (list dict)) :
  _verify_nft_metadata nft1 = _verify_nft_metadata nft2 ->
  _analyze_nft_risk nft1 tx_history = _analyze_nft_risk nft2 tx_history.
Proof.
  intros Hmeta. unfold _analyze_nft_risk. rewrite Hmeta.
  destruct (_verify_nft_metadata nft2) as [complete | e]; [ | reflexivity ].
  cbn [bind]. destruct tx_history as [ [ | tx txs ] | ]; try reflexivity.
  now rewrite (transfer_count_any_nft (tx :: txs) nft1 nft2).
Qed.

Lemma history_transfers_Ok (nft : dict) (tx_history : option (list dict)) (c : Z) :
  match tx_history with
  | Some ((_ :: _) as txs) => transfer_count txs nft = Ok c
  | _ => c = 0
  end ->
  c = history_transfers tx_history.
Proof.
  destruct tx_history as [ [ | tx txs ] | ]; try (intros ->; reflexivity).
  intros H. now destruct (transfer_count_Ok _ _ _ H).
Qed.

(** X6: a returned assessment is high-risk exactly when the history counts
    at least 7 transfers, or at least 5 and the metadata is incomplete;
    incomplete metadata alone never makes an NFT high-risk. *)
Theorem nft_high_risk_thresholds (nft : dict) (tx_history : option (list dict))
    (r : RiskAssessment) :
  _analyze_nft_risk nft tx_history = Ok r ->
  exists complete,
    _verify_nft_metadata nft = Ok complete
    /\ (is_high_risk r = true
        <-> (if complete then 7 else 5) <= history_transfers tx_history)
    /\ (history_transfers tx_history <= 3 -> risk_score r <= 40).
Proof.
  intros H.
  destruct (analyze_nft_risk_Ok _ _ _ H) as (complete & c & Hmeta & Hc & Hs & _ & Hh).
  apply history_transfers_Ok in Hc. subst c.
  set (c := history_transfers tx_history) in *.
  exists complete. split; [ exact Hmeta | ].
  rewrite Hh, Hs, Z.leb_le.
  destruct complete; cbn [metadata_penalty negb fst];
    destruct (Z.ltb_spec 3 c); split; intros; lia.
Qed.

(** ** The aggregate over NFTs, without its loop *)

Lemma questionable_of_cons (nft : dict) (a : RiskAssessment) (nfts : list dict)
    (assessments : list RiskAssessment) :
  questionable_of (nft :: nfts) (a :: assessments)
  = (if is_high_risk a then [ {| nft_data := nft; risk_assessment := a |} ] else [])
    ++ questionable_of nfts assessments.
Proof.
  unfold questionable_of. cbn [combine List.filter snd].
  destruct (is_high_risk a); reflexivity.
Qed.

Lemma verify_nfts_loop_Ok (nfts : list dict) (tx_history : option (list dict))
    (scores scores' : list Z) (questionable questionable' : list Questionable) :
  verify_nfts_loop nfts tx_history scores questionable = Ok (scores', questionable') ->
  exists assessments,
    Forall2 (fun nft a => _analyze_nft_risk nft tx_history = Ok a) nfts assessments
    /\ scores' = scores ++ map risk_score assessments
    /\ questionable' = questionable ++ questionable_of nfts assessments.
Proof.
  revert scores questionable.
  induction nfts as [ | nft nfts IH ]; intros scores questionable H.
  - injection H as <- <-. exists []. rewrite !app_nil_r. repeat split. constructor.
  - cbn [verify_nfts_loop] in H. apply bind_Ok in H. destruct H as (a & Ha & H).
    destruct (IH _ _ H) as (assessments & Hall & -> & ->).
    exists (a :: assessments). split; [ now constructor | ].
    rewrite questionable_of_cons. cbn [map].
    split; [ now rewrite <- app_assoc | ].
    destruct (is_high_risk a); [ now rewrite <- app_assoc | reflexivity ].
Qed.

Lemma verify_nfts_loop_returns (nfts : list dict) (tx_history : option (list dict))
    (assessments : list RiskAssessment) (scores : list Z)
    (questionable : list Questionable) :
  Forall2 (fun nft a => _analyze_nft_risk nft tx_history = Ok a) nfts assessments ->
  verify_nfts_loop nfts tx_history scores questionable
  = Ok (scores ++ map risk_score assessments,
        questionable ++ questionable_of nfts assessments).
Proof.
  intros Hall. revert scores questionable.
  induction Hall as [ | nft a nfts assessments Ha _ IH ]; intros scores questionable.
  - cbn. now rewrite !app_nil_r.
  - cbn [verify_nfts_loop]. rewrite Ha. cbn [bind]. rewrite IH.
    rewrite questionable_of_cons. cbn [map].
    destruct (is_high_risk a); now rewrite <- ?app_assoc.
Qed.

Section AggregateShape.

Context {DT : DateTimeLib}.
Variable clock : nat -> datetime.

(** X7: [_verify_nfts] returns exactly when every NFT can be assessed; its
    questionable entries are then the high-risk NFTs with their
    assessments, in input order, and the clock is read once, for the
    verification timestamp. *)
Theorem verify_nfts_shape (nfts : list dict) (tx_history : option (list dict))
    (t : nat) :
  (forall r t',
      _verify_nfts clock nfts tx_history t = Ok (r, t') ->
      exists assessments,
        Forall2 (fun nft a => _analyze_nft_risk nft tx_history = Ok a)
          nfts assessments
        /\ questionable_nfts r = questionable_of nfts assessments
        /\ verification_timestamp r = isoformat (clock t)
        /\ t' = S t)
  /\ (forall assessments,
         Forall2 (fun nft a => _analyze_nft_risk nft tx_history = Ok a)
           nfts assessments ->
         exists r, _verify_nfts clock nfts tx_history t = Ok (r, S t)
                   /\ questionable_nfts r = questionable_of nfts assessments).
Proof.
  split.
  - intros r t' H. unfold _verify_nfts in H.
    apply bind_Ok in H. destruct H as ([scores questionable] & Hloop & H).
    injection H as <- <-.
    destruct (verify_nfts_loop_Ok _ _ _ _ _ _ Hloop) as (assessments & Hall & -> & ->).
    exists assessments. cbn. auto.
  - intros assessments Hall. unfold _verify_nfts.
    rewrite (verify_nfts_loop_returns _ _ _ [] [] Hall). cbn [bind fst snd app].
    eexists. split; reflexivity.
Qed.

(** X8: without a transaction history (absent or empty) nothing raises the
    score above the metadata penalty of 40, so [_verify_nfts] never reports
    a questionable NFT and always answers [is_verified = true]. *)
Theorem no_history_always_verified (nfts : list dict)
    (tx_history : option (list dict)) (t t' : nat) (r : VerificationResult) :
  tx_history = None \/ tx_history = Some [] ->
  _verify_nfts clock nfts tx_history t = Ok (r, t') ->
  questionable_nfts r = [] /\ is_verified r = true.
Proof.
  intros Hnone H. unfold _verify_nfts in H.
  apply bind_Ok in H. destruct H as ([scores questionable] & Hloop & H).
  injection H as <- _.
  destruct (verify_nfts_loop_Ok _ _ _ _ _ _ Hloop) as (assessments & Hall & _ & ->).
  cbn [questionable_nfts is_verified fst snd app].
  assert (Hq : questionable_of nfts assessments = []).
  { clear Hloop. induction Hall as [ | nft a nfts assessments Ha _ IH ];
      [ reflexivity | ].
    rewrite questionable_of_cons, IH, app_nil_r.
    destruct (analyze_nft_risk_Ok _ _ _ Ha) as (complete & c & _ & Hc & Hs & _ & Hh).
    assert (c = 0) by (destruct Hnone as [-> | ->]; exact Hc). subst c.
    rewrite Hh, Hs. destruct complete; reflexivity. }
  rewrite Hq. split; reflexivity.
Qed.

End AggregateShape.

(** ** Scoring a collection: verdict, oldest transaction, timestamps *)

Lemma ltb_false_leb (a b : string) : String.ltb a b = false -> String.leb b a = true.
Proof.
  unfold String.ltb, String.leb. rewrite (String.compare_antisym b a).
  destruct (String.compare a b); simpl; congruence.
Qed.

Lemma leb_refl (a : string) : String.leb a a = true.
Proof.
  pose proof (reflexivity (R := String.le) a) as H.
  unfold String.le in H. now apply Is_true_true.
Qed.

Lemma leb_trans (a b c : string) :
  String.leb a b = true -> String.leb b c = true -> String.leb a c = true.
Proof.
  intros Hab Hbc. apply Is_true_true.
  change (String.le a c).
  transitivity b; unfold String.le; now apply Is_true_true.
Qed.

Lemma ltb_leb (a b : string) : String.ltb a b = true -> String.leb a b = true.
Proof.
  unfold String.ltb, String.leb. destruct (String.compare a b); congruence.
Qed.

Section CollectionVerdict.

Context {DT : DateTimeLib}.
Variable clock : nat -> datetime.

(** X9: a returned collection score is at most 105, and the collection is
    high-risk exactly when it has zero supply together with a new creator
    or incomplete metadata, or a very low supply together with both; it is
    verified exactly when it is not high-risk. *)
Theorem collection_high_risk_iff (collection_data : dict)
    (tx_history : option (list dict)) (t t' : nat) (r : CollectionVerification) :
  _verify_collection clock collection_data tx_history t = Ok (r, t') ->
  0 <= cv_risk_score r <= 105
  /\ cv_is_verified r = negb (cv_is_high_risk r)
  /\ (cv_is_high_risk r = true
      <-> (In "ZERO_SUPPLY" (cv_risk_factors r)
           /\ (In "NEW_CREATOR_ACCOUNT" (cv_risk_factors r)
               \/ In "INCOMPLETE_METADATA" (cv_risk_factors r)))
          \/ (In "VERY_LOW_SUPPLY" (cv_risk_factors r)
              /\ In "NEW_CREATOR_ACCOUNT" (cv_risk_factors r)
              /\ In "INCOMPLETE_METADATA" (cv_risk_factors r))).
Proof.
  intros H.
  assert (Hverified : cv_is_verified r = negb (cv_is_high_risk r)).
  { unfold _verify_collection in H.
    apply bind_Ok in H. destruct H as (age & _ & H).
    apply bind_Ok in H. destruct H as (supply & _ & H).
    now injection H as <- _. }
  destruct (verify_collection_Ok _ _ _ _ _ _ H)
    as (age & supply & Hage & Hsupply & Hs & Hf & Hh & _).
  split; [ | split; [ exact Hverified | ] ]; rewrite ?Hh, ?Hf, ?Hs;
    destruct (account_age_check_Ok _ _ _ _ Hage) as [-> | ->];
    destruct (supply_check_Ok _ _ Hsupply) as [-> | [-> | ->]];
    destruct (metadata_check_cases collection_data) as [-> | ->];
    cbn; try lia;
    (split; [ intros Hhigh; try discriminate Hhigh; tauto
            | intros Hfactors; try reflexivity;
              exfalso; intuition discriminate ]).
Qed.

End CollectionVerdict.

Section OldestTransaction.

Context {DT : DateTimeLib}.
Variable clock : nat -> datetime.

Lemma stamp_of_Some (tx : dict) (s : string) :
  stamp_of tx = Some s <-> tx !! "timestamp" = Some (VStr s).
Proof.
  unfold stamp_of. destruct (tx !! "timestamp") as [ [ | | | s' | | ] | ];
    split; congruence.
Qed.

Lemma timestamp_key_stamped (tx : dict) (s : string) (t : nat) :
  stamp_of tx = Some s -> timestamp_key clock tx t = VStr s.
Proof.
  intros H. apply stamp_of_Some in H. unfold timestamp_key. now rewrite H.
Qed.

Lemma min_loop_stamped (rest : list dict) (best : dict) (kb : string) (t : nat) :
  stamp_of best = Some kb ->
  stamped_history rest ->
  exists oldest so,
    min_loop clock best (VStr kb) rest t = Ok (oldest, (t + length rest)%nat)
    /\ stamp_of oldest = Some so
    /\ (oldest = best \/ In oldest rest)
    /\ String.leb so kb = true
    /\ Forall (fun tx => exists s, stamp_of tx = Some s /\ String.leb so s = true) rest.
Proof.
  intros Hbest Hrest. revert best kb t Hbest.
  induction Hrest as [ | x rest [k Hk] _ IH ]; intros best kb t Hbest.
  - exists best, kb. cbn [min_loop length]. rewrite Nat.add_0_r.
    repeat split; auto using leb_refl.
  - cbn [min_loop length]. rewrite (timestamp_key_stamped x k t Hk).
    cbn [py_lt bind]. rewrite Nat.add_succ_r.
    destruct (String.ltb k kb) eqn:Hlt.
    + destruct (IH x k (S t) Hk) as (oldest & so & Hrun & Hso & Hin & Hle & Hall).
      exists oldest, so. split; [ exact Hrun | ]. split; [ exact Hso | ].
      split; [ right; destruct Hin as [-> | Hin]; [ now left | now right ] | ].
      split; [ exact (leb_trans _ _ _ Hle (ltb_leb _ _ Hlt)) | ].
      constructor; [ eauto | exact Hall ].
    + destruct (IH best kb (S t) Hbest) as (oldest & so & Hrun & Hso & Hin & Hle & Hall).
      exists oldest, so. split; [ exact Hrun | ]. split; [ exact Hso | ].
      split; [ destruct Hin as [-> | Hin]; [ now left | right; now right ] | ].
      split; [ exact Hle | ].
      constructor; [ | exact Hall ].
      exists k. split; [ exact Hk | ].
      exact (leb_trans _ _ _ Hle (ltb_false_leb _ _ Hlt)).
Qed.

(** X10: on a history whose transactions all carry a string timestamp,
    [min] succeeds after one clock reading per transaction and selects a
    transaction of the history whose timestamp is, as a string, less than or
    equal to every other one. *)
Theorem oldest_transaction_is_least (tx0 : dict) (rest : list dict) (t : nat) :
  stamped_history (tx0 :: rest) ->
  exists oldest so,
    oldest_transaction clock tx0 rest t
    = Ok (oldest, (t + length (tx0 :: rest))%nat)
    /\ In oldest (tx0 :: rest)
    /\ stamp_of oldest = Some so
    /\ Forall (fun tx => exists s, stamp_of tx = Some s /\ String.leb so s = true)
         (tx0 :: rest).
Proof.
  intros Hall. inversion Hall as [ | ? ? [k0 Hk0] Hrest ]; subst.
  destruct (min_loop_stamped rest tx0 k0 (S t) Hk0 Hrest)
    as (oldest & so & Hrun & Hso & Hin & Hle & Hothers).
  exists oldest, so. unfold oldest_transaction.
  rewrite (timestamp_key_stamped tx0 k0 t Hk0), Hrun. cbn [length].
  rewrite Nat.add_succ_r. split; [ reflexivity | ].
  split; [ destruct Hin as [-> | Hin]; [ now left | now right ] | ].
  split; [ exact Hso | ]. constructor; [ eauto | exact Hothers ].
Qed.

(** X11: when the transaction that [min] selects has no timestamp, or one
    that is not a string, [_verify_collection] raises [TypeError]. *)
Theorem unusable_timestamp_raises (collection_data : dict)
    (tx0 : dict) (rest : list dict) (t t1 : nat) (oldest : dict) :
  oldest_transaction clock tx0 rest t = Ok (oldest, t1) ->
  stamp_of oldest = None ->
  _verify_collection clock collection_data (Some (tx0 :: rest)) t
  = Raise TypeError.
Proof.
  intros Hmin Hstamp. unfold _verify_collection, account_age_check.
  rewrite Hmin. cbn [bind fst snd]. unfold stamp_of in Hstamp.
  destruct (oldest !! "timestamp") as [ [ | | | s | | ] | ];
    try discriminate Hstamp; reflexivity.
Qed.

End OldestTransaction.

(** ** Normalising resources *)

Lemma format_nft_Some (resource nft : dict) :
  format_nft resource = Ok (Some nft) ->
  exists raw_data,
    default (VDict ∅) (resource !! "data") = VDict raw_data
    /\ py_in "token" (default (VStr EmptyString) (resource !! "type")) = Ok true
    /\ nft !! "name" = Some (default (VStr "Unnamed NFT") (raw_data !! "name"))
    /\ nft !! "id"
       = Some (default (default (VStr "N/A") (raw_data !! "id"))
                 (raw_data !! "token_id"))
    /\ nft !! "collection"
       = Some (default (default (VStr "N/A") (raw_data !! "collection"))
                 (raw_data !! "collection_name"))
    /\ nft !! "creator"
       = Some (default (default (VStr "N/A") (raw_data !! "creator"))
                 (raw_data !! "creator_address"))
    /\ nft !! "metadata" = Some (VDict raw_data)
    /\ nft !! "resource_type" = Some (default VNone (resource !! "type"))
    /\ nft !! "uri" = raw_data !! "uri"
    /\ nft !! "description" = raw_data !! "description".
Proof.
  unfold format_nft. intros H.
  apply bind_Ok in H. destruct H as (is_token & Htoken & H).
  destruct is_token; [ | discriminate H ].
  destruct (default (VDict ∅) (resource !! "data")) as [ | | | | | raw_data ];
    try discriminate H.
  injection H as <-. exists raw_data.
  split; [ reflexivity | ]. split; [ exact Htoken | ].
  destruct (raw_data !! "uri"), (raw_data !! "description");
    repeat split; reflexivity.
Qed.

Lemma format_nft_wf (resource : dict) :
  wf_resource resource ->
  if is_token_resource resource
  then exists nft, format_nft resource = Ok (Some nft)
  else format_nft resource = Ok None.
Proof.
  intros ([s Hs] & raw_data & Hraw). unfold is_token_resource, format_nft.
  rewrite Hs, Hraw. cbn [py_in bind].
  destruct (Str.contains "token" s); [ eexists; reflexivity | reflexivity ].
Qed.

Lemma parse_nfts_Ok (resources nfts : list dict) :
  parse_nfts resources = Ok nfts ->
  Forall (fun nft => exists resource,
            In resource resources /\ format_nft resource = Ok (Some nft)) nfts.
Proof.
  revert nfts. induction resources as [ | resource resources IH ]; intros nfts H.
  - injection H as <-. constructor.
  - cbn [parse_nfts] in H.
    apply bind_Ok in H. destruct H as (formatted & Hformat & H).
    apply bind_Ok in H. destruct H as (rest & Hrest & H). injection H as <-.
    assert (Htail : Forall (fun nft => exists r, In r (resource :: resources)
                                          /\ format_nft r = Ok (Some nft)) rest).
    { eapply List.Forall_impl; [ | exact (IH _ Hrest) ].
      intros nft (r & Hin & Hr). exists r. split; [ now right | exact Hr ]. }
    destruct formatted as [nft | ]; [ | exact Htail ].
    constructor; [ | exact Htail ]. exists resource. split; [ now left | exact Hformat ].
Qed.


Lemma parse_nfts_keeps_token_resources_aux (resources : list dict) :
  Forall wf_resource resources ->
  exists nfts,
    parse_nfts resources = Ok nfts
    /\ Forall2 (fun resource nft => format_nft resource = Ok (Some nft))
         (List.filter is_token_resource resources) nfts
    /\ length nfts = length (List.filter is_token_resource resources).
Proof.
  induction 1 as [ | resource resources Hwf _ (nfts & Hrun & Hall & Hlen) ].
  - exists []. repeat split. constructor.
  - pose proof (format_nft_wf resource Hwf) as Hformat.
    cbn [parse_nfts List.filter]. rewrite Hrun.
    destruct (is_token_resource resource).
    + destruct Hformat as [nft Hnft]. rewrite Hnft. cbn [bind].
      exists (nft :: nfts). split; [ reflexivity | ].
      split; [ now constructor | cbn [length]; now rewrite Hlen ].
    + rewrite Hformat. cbn [bind]. exists nfts. auto.
Qed.

(** X13: on well-formed resources [parse_nfts] returns one NFT per resource
    whose type contains "token", in the order of the resources, and
    nothing for the others; without such a resource the list is empty. *)
Theorem parse_nfts_keeps_token_resources (resources : list dict) :
  Forall wf_resource resources ->
  exists nfts,
    parse_nfts resources = Ok nfts
    /\ Forall2 (fun resource nft => format_nft resource = Ok (Some nft))
         (List.filter is_token_resource resources) nfts
    /\ (forallb (fun resource => negb (is_token_resource resource)) resources = true
        -> nfts = []).
Proof.
  intros Hwf.
  destruct (parse_nfts_keeps_token_resources_aux _ Hwf) as (nfts & Hrun & Hall & Hlen).
  exists nfts. split; [ exact Hrun | ]. split; [ exact Hall | ].
  intros Hnone.
  assert (Hfilter : List.filter is_token_resource resources = []).
  { clear -Hnone. induction resources as [ | r rs IH ]; [ reflexivity | ].
    cbn [forallb List.filter] in *. apply andb_true_iff in Hnone.
    destruct Hnone as [Hr Hrs]. destruct (is_token_resource r);
      [ discriminate Hr | now apply IH ]. }
  rewrite Hfilter in Hlen. now destruct nfts.
Qed.

Lemma formatted_nft_metadata (resource nft : dict) :
  format_nft resource = Ok (Some nft) ->
  _verify_nft_metadata nft
  = Ok (bool_decide (is_Some (nft !! "uri"))
        || bool_decide (is_Some (nft !! "description"))).
Proof.
  intros H.
  destruct (format_nft_Some _ _ H)
    as (raw_data & _ & _ & Hname & Hid & _ & _ & Hmeta & _ & Huri & Hdesc).
  unfold _verify_nft_metadata. cbn [forallb].
  rewrite Hname, Hid, Hmeta, Huri, Hdesc.
  rewrite !bool_decide_eq_true_2 by eauto. cbn [andb negb py_in bind].
  destruct (bool_decide (is_Some (raw_data !! "uri"))); cbn [bind orb];
    [ reflexivity | ].
  destruct (bool_decide (is_Some (raw_data !! "description"))); reflexivity.
Qed.

Lemma analyze_nft_risk_returns (nft : dict) (tx_history : option (list dict))
    (complete : bool) :
  match tx_history with
  | Some txs => typed_history txs
  | None => True
  end ->
  _verify_nft_metadata nft = Ok complete ->
  exists r, _analyze_nft_risk nft tx_history = Ok r.
Proof.
  intros Htyped Hmeta. unfold _analyze_nft_risk. rewrite Hmeta. cbn [bind].
  destruct tx_history as [ [ | tx txs ] | ]; cbn [bind]; eauto.
  rewrite (transfer_count_typed _ nft Htyped). cbn [bind].
  destruct (3 <? lowered_transfer_count (tx :: txs)); cbn [bind]; eauto.
Qed.

(** X14: the metadata check never fails on an NFT that [parse_nfts]
    returned, and holds exactly when the NFT has a [uri] or a
    [description]; scored with a well-typed history, such an NFT is tagged
    INCOMPLETE_METADATA exactly when it has neither. *)
Theorem parsed_nft_metadata_verdict (resources nfts : list dict)
    (txs : list dict) :
  parse_nfts resources = Ok nfts ->
  typed_history txs ->
  Forall (fun nft =>
    _verify_nft_metadata nft
    = Ok (bool_decide (is_Some (nft !! "uri"))
          || bool_decide (is_Some (nft !! "description")))
    /\ exists r,
         _analyze_nft_risk nft (Some txs) = Ok r
         /\ (In "INCOMPLETE_METADATA" (risk_factors r)
             <-> nft !! "uri" = None /\ nft !! "description" = None)) nfts.
Proof.
  intros H Htyped. eapply List.Forall_impl; [ | exact (parse_nfts_Ok _ _ H) ].
  intros nft (resource & _ & Hformat).
  pose proof (formatted_nft_metadata _ _ Hformat) as Hmeta.
  split; [ exact Hmeta | ].
  destruct (analyze_nft_risk_returns nft (Some txs) _ Htyped Hmeta) as [r Hr].
  exists r. split; [ exact Hr | ].
  destruct (analyze_nft_risk_Ok _ _ _ Hr) as (complete & c & Hc & _ & _ & -> & _).
  rewrite Hmeta in Hc. injection Hc as <-.
  destruct (nft !! "uri") as [u | ], (nft !! "description") as [d | ];
    rewrite ?(bool_decide_eq_true_2 (is_Some (Some _))) by eauto;
    rewrite ?(bool_decide_eq_false_2 (is_Some None)) by (intros [? ?]; discriminate);
    cbn [orb negb metadata_penalty snd];
    (split; [ intros Hin | intros [? ?]; try discriminate ]).
  all: try (apply in_app_or in Hin; destruct Hin as [[] | Hin];
            destruct (3 <? c); cbn in Hin; intuition discriminate).
  all: try (split; reflexivity).
  apply in_or_app. left. now left.
Qed.

(** ** Token balances *)

Lemma format_balance_Some (resource : dict) (b : TokenBalance) :
  format_balance resource = Ok (Some b) ->
  exists ty raw_data v,
    default (VStr EmptyString) (resource !! "type") = VStr ty
    /\ default (VDict ∅) (resource !! "data") = VDict raw_data
    /\ Str.contains "coin" (Str.lower ty) || Str.contains "token" (Str.lower ty) = true
    /\ (raw_data !! "value" = Some v
        \/ raw_data !! "value" = None /\ raw_data !! "amount" = Some v)
    /\ b = {| tb_name := _extract_token_name ty;
              tb_amount := v;
              tb_resource_type := VStr ty |}.
Proof.
  unfold format_balance. intros H.
  destruct (default (VStr EmptyString) (resource !! "type")) as [ | | | ty | | ];
    try discriminate H.
  destruct (Str.contains "coin" (Str.lower ty) || Str.contains "token" (Str.lower ty))
    eqn:Hkind; [ | discriminate H ].
  apply bind_Ok in H. destruct H as (has_value & Hvalue & H).
  apply bind_Ok in H. destruct H as (has_any & Hany & H).
  destruct has_any; [ | discriminate H ].
  apply bind_Ok in H. destruct H as (fallback & Hfallback & H).
  apply bind_Ok in H. destruct H as (amount & Hamount & H).
  injection H as <-.
  destruct (default (VDict ∅) (resource !! "data")) as [ | | | | | raw_data ];
    try discriminate Hfallback.
  cbn [py_get py_in] in *.
  injection Hfallback as <-. injection Hamount as <-. injection Hvalue as <-.
  destruct (raw_data !! "value") as [v | ] eqn:Hv.
  - exists ty, raw_data, v. repeat split; auto.
  - rewrite bool_decide_eq_false_2 in Hany by (intros [? ?]; discriminate).
    injection Hany as Hany. apply bool_decide_eq_true_1 in Hany.
    destruct Hany as [v Ha]. exists ty, raw_data, v. rewrite Ha.
    repeat split; auto.
Qed.

Lemma parse_balances_Ok (resources : list dict) (balances : list TokenBalance) :
  parse_balances resources = Ok balances ->
  Forall (fun b => exists resource,
            In resource resources /\ format_balance resource = Ok (Some b)) balances.
Proof.
  revert balances. induction resources as [ | resource resources IH ]; intros balances H.
  - injection H as <-. constructor.
  - cbn [parse_balances] in H.
    apply bind_Ok in H. destruct H as (formatted & Hformat & H).
    apply bind_Ok in H. destruct H as (rest & Hrest & H). injection H as <-.
    assert (Htail : Forall (fun b => exists r, In r (resource :: resources)
                                        /\ format_balance r = Ok (Some b)) rest).
    { eapply List.Forall_impl; [ | exact (IH _ Hrest) ].
      intros b (r & Hin & Hr). exists r. split; [ now right | exact Hr ]. }
    destruct formatted as [b | ]; [ | exact Htail ].
    constructor; [ | exact Htail ]. exists resource. split; [ now left | exact Hformat ].
Qed.

(** X15: on resources whose types are ASCII strings, every balance that
    [parse_balances] returns comes from a resource whose lower-cased type
    contains "coin" or "token"; its amount is the [value] of the raw data
    when there is one and the [amount] otherwise, never the fallback 0, and
    its name is extracted from the type. *)
Theorem parsed_balance_contract (resources : list dict)
    (balances : list TokenBalance) :
  forallb ascii_typed resources = true ->
  parse_balances resources = Ok balances ->
  Forall (fun b =>
    exists resource ty raw_data,
      In resource resources
      /\ resource !! "type" = Some (VStr ty)
      /\ resource !! "data" = Some (VDict raw_data)
      /\ Str.contains "coin" (Str.lower ty) || Str.contains "token" (Str.lower ty) = true
      /\ tb_name b = _extract_token_name ty
      /\ tb_resource_type b = VStr ty
      /\ Some (tb_amount b)
         = match raw_data !! "value" with
           | Some v => Some v
           | None => raw_data !! "amount"
           end) balances.
Proof.
  intros _ H. eapply List.Forall_impl; [ | exact (parse_balances_Ok _ _ H) ].
  intros b (resource & Hin & Hformat).
  destruct (format_balance_Some _ _ Hformat)
    as (ty & raw_data & v & Hty & Hraw & Hkind & Hv & ->).
  exists resource, ty, raw_data. cbn [tb_name tb_amount tb_resource_type].
  assert (Hty' : resource !! "type" = Some (VStr ty)).
  { destruct (resource !! "type") as [x | ]; cbn in Hty; [ now subst | ].
    injection Hty as <-. cbn in Hkind. discriminate Hkind. }
  assert (Hraw' : resource !! "data" = Some (VDict raw_data)).
  { destruct (resource !! "data") as [x | ]; cbn in Hraw; [ now subst | ].
    injection Hraw as <-. destruct Hv as [Hv | [_ Hv]]; discriminate Hv. }
  repeat split; auto.
  destruct Hv as [-> | [-> ->]]; reflexivity.
Qed.


(** ** The owner path on well-formed data *)

Lemma format_balance_wf (resource : dict) :
  wf_resource resource -> exists b, format_balance resource = Ok b.
Proof.
  intros ([ty Hty] & raw_data & Hraw). unfold format_balance. rewrite Hty, Hraw.
  destruct (Str.contains "coin" (Str.lower ty) || Str.contains "token" (Str.lower ty));
    [ | eauto ].
  cbn [py_in py_get bind].
  destruct (bool_decide (is_Some (raw_data !! "value"))); cbn [bind]; [ eauto | ].
  destruct (bool_decide (is_Some (raw_data !! "amount"))); cbn [bind]; eauto.
Qed.

Lemma parse_balances_wf (resources : list dict) :
  Forall wf_resource resources ->
  exists balances, parse_balances resources = Ok balances.
Proof.
  induction 1 as [ | resource resources Hwf _ [balances Hrun] ]; [ now exists [] | ].
  destruct (format_balance_wf resource Hwf) as [b Hb].
  cbn [parse_balances]. rewrite Hb, Hrun. cbn [bind]. eauto.
Qed.

Lemma wf_history_typed (txs : list dict) : Forall wf_tx txs -> typed_history txs.
Proof.
  intros H. eapply List.Forall_impl; [ | exact H ]. intros tx [Hty _]. exact Hty.
Qed.

Lemma parsed_nfts_assessed (resources nfts : list dict)
    (tx_history : option (list dict)) :
  parse_nfts resources = Ok nfts ->
  match tx_history with
  | Some txs => typed_history txs
  | None => True
  end ->
  exists assessments,
    Forall2 (fun nft a => _analyze_nft_risk nft tx_history = Ok a) nfts assessments.
Proof.
  intros Hparse Htyped. pose proof (parse_nfts_Ok _ _ Hparse) as Hall.
  clear Hparse. induction Hall as [ | nft nfts (resource & _ & Hformat) _ [assessments IH] ].
  - exists []. constructor.
  - destruct (analyze_nft_risk_returns nft tx_history _ Htyped
                (formatted_nft_metadata _ _ Hformat)) as [a Ha].
    exists (a :: assessments). now constructor.
Qed.

Section OwnerTotal.

Context {DT : DateTimeLib}.
Variable clock : nat -> datetime.

Lemma owner_path_run (self : NFTVerifier) (owner : string) (t : nat)
    (resource : dict) (resources txs : list dict) :
  get_account_resources (aptos_api self) owner = Some (resource :: resources) ->
  Forall wf_resource (resource :: resources) ->
  get_account_transactions (aptos_api self) owner = Some txs ->
  Forall wf_tx txs ->
  exists report nfts,
    get_nft_data_by_owner clock self owner t = Ok (report, S t)
    /\ report_nfts report = nfts
    /\ report_is_scammer report = Some (bool_decide (owner ∈ known_scammers self))
    /\ length nfts
       = length (List.filter is_token_resource (resource :: resources)).
Proof.
  intros Hres Hwf Htxs Hwftx.
  destruct (parse_nfts_keeps_token_resources_aux _ Hwf) as (nfts & Hnfts & _ & Hlen).
  destruct (parse_balances_wf _ Hwf) as [balances Hbalances].
  destruct (parsed_nfts_assessed _ _ (Some txs) Hnfts (wf_history_typed _ Hwftx))
    as [assessments Hall].
  unfold get_nft_data_by_owner. rewrite Hres, Hnfts, Hbalances, Htxs.
  cbn [bind]. unfold _parse_account_activities.
  rewrite (activities_loop_wf txs activities_init Hwftx) by (cbn; lia).
  cbn [bind]. unfold _verify_nfts.
  rewrite (verify_nfts_loop_returns _ _ _ [] [] Hall). cbn [bind fst snd].
  eexists _, nfts. split; [ reflexivity | ]. repeat split. exact Hlen.
Qed.

(** X17: when the node answers a non-empty list of well-formed resources
    and a list of well-formed transactions, all with ASCII types,
    [get_nft_data_by_owner] returns the full account report after one clock
    reading: one NFT per token-typed resource, the activity summary in closed
    form, and the scammer flag as registry membership. *)
Theorem owner_path_answers (self : NFTVerifier) (owner : string) (t : nat)
    (resource : dict) (resources txs : list dict) :
  get_account_resources (aptos_api self) owner = Some (resource :: resources) ->
  Forall wf_resource (resource :: resources) ->
  forallb ascii_typed (resource :: resources) = true ->
  get_account_transactions (aptos_api self) owner = Some txs ->
  Forall wf_tx txs ->
  forallb ascii_tx txs = true ->
  exists nfts balances verification,
    get_nft_data_by_owner clock self owner t
    = Ok (AccountInfo owner nfts balances (activity_summary txs)
            (bool_decide (owner ∈ known_scammers self)) verification,
          S t)
    /\ parse_nfts (resource :: resources) = Ok nfts
    /\ length nfts
       = length (List.filter is_token_resource (resource :: resources))
    /\ parse_balances (resource :: resources) = Ok balances.
Proof.
  intros Hres Hwf _ Htxs Hwftx _.
  destruct (parse_nfts_keeps_token_resources_aux _ Hwf) as (nfts & Hnfts & _ & Hlen).
  destruct (parse_balances_wf _ Hwf) as [balances Hbalances].
  destruct (parsed_nfts_assessed _ _ (Some txs) Hnfts (wf_history_typed _ Hwftx))
    as [assessments Hall].
  unfold get_nft_data_by_owner. rewrite Hres, Hnfts, Hbalances, Htxs.
  cbn [bind]. unfold _parse_account_activities.
  rewrite (activities_loop_wf txs activities_init Hwftx), activities_after_init
    by (cbn; lia).
  cbn [bind]. unfold _verify_nfts.
  rewrite (verify_nfts_loop_returns _ _ _ [] [] Hall). cbn [bind fst snd].
  eexists _, _, _. split; [ reflexivity | ].
  split; [ reflexivity | ]. split; [ exact Hlen | reflexivity ].
Qed.

Lemma owner_path_without_history (self : NFTVerifier) (owner : string) (t : nat)
    (resource : dict) (resources : list dict) :
  get_account_resources (aptos_api self) owner = Some (resource :: resources) ->
  Forall wf_resource (resource :: resources) ->
  get_account_transactions (aptos_api self) owner = None ->
  get_nft_data_by_owner clock self owner t = Raise TypeError.
Proof.
  intros Hres Hwf Htxs.
  destruct (parse_nfts_keeps_token_resources_aux _ Hwf) as (nfts & Hnfts & _).
  destruct (parse_balances_wf _ Hwf) as [balances Hbalances].
  unfold get_nft_data_by_owner. now rewrite Hres, Hnfts, Hbalances, Htxs.
Qed.

End OwnerTotal.

(** ** The collection path *)

Lemma incomplete_tag_iff (nft : dict) (tx_history : option (list dict))
    (r : RiskAssessment) (complete : bool) :
  _verify_nft_metadata nft = Ok complete ->
  _analyze_nft_risk nft tx_history = Ok r ->
  (In "INCOMPLETE_METADATA" (risk_factors r) <-> complete = false).
Proof.
  intros Hmeta Hr.
  destruct (analyze_nft_risk_Ok _ _ _ Hr) as (complete' & c & Hc & _ & _ & -> & _).
  rewrite Hmeta in Hc. injection Hc as <-.
  destruct complete; cbn [negb metadata_penalty snd]; split.
  - intros Hin. apply in_app_or in Hin. destruct Hin as [[] | Hin].
    destruct (3 <? c); cbn in Hin; intuition discriminate.
  - discriminate.
  - reflexivity.
  - intros _. apply in_or_app. left. now left.
Qed.

Lemma format_token_lookups (creator_address collection_name : string)
    (token_data : dict) :
  let formatted := format_token creator_address collection_name token_data in
  formatted !! "name" = Some (default (VStr "Unnamed Token") (token_data !! "name"))
  /\ formatted !! "id"
     = Some (default (default (VStr "N/A") (token_data !! "id"))
               (token_data !! "token_id"))
  /\ formatted !! "owner" = Some (default (VStr "N/A") (token_data !! "owner"))
  /\ formatted !! "creator" = Some (VStr creator_address)
  /\ formatted !! "collection" = Some (VStr collection_name)
  /\ formatted !! "metadata" = Some (VDict token_data).
Proof. repeat split; reflexivity. Qed.

Lemma format_token_metadata (creator_address collection_name : string)
    (token_data : dict) :
  _verify_nft_metadata (format_token creator_address collection_name token_data)
  = Ok (bool_decide (is_Some (token_data !! "uri"))
        || bool_decide (is_Some (token_data !! "description"))).
Proof.
  destruct (format_token_lookups creator_address collection_name token_data)
    as (Hname & Hid & _ & _ & _ & Hmeta).
  unfold _verify_nft_metadata. cbn [forallb].
  rewrite Hname, Hid, Hmeta.
  rewrite !bool_decide_eq_true_2 by eauto. cbn [andb negb py_in bind].
  destruct (bool_decide (is_Some (token_data !! "uri"))); cbn [bind orb];
    [ reflexivity | ].
  destruct (bool_decide (is_Some (token_data !! "description"))); reflexivity.
Qed.

Lemma bool_decide_is_Some_false {A : Type} (o : option A) :
  bool_decide (is_Some o) = false <-> o = None.
Proof.
  destruct o as [a | ].
  - rewrite bool_decide_eq_true_2 by eauto. split; discriminate.
  - rewrite bool_decide_eq_false_2 by (intros [? ?]; discriminate).
    split; reflexivity.
Qed.

Lemma no_uri_no_description (d : dict) :
  bool_decide (is_Some (d !! "uri")) || bool_decide (is_Some (d !! "description"))
  = false
  <-> d !! "uri" = None /\ d !! "description" = None.
Proof.
  rewrite orb_false_iff, !bool_decide_is_Some_false. reflexivity.
Qed.

Section TokenLookup.

Variable repr_container : value -> string.

Lemma filter_tokens_Ok (tokens : list value) (token_id : string)
    (filtered : list dict) :
  filter_tokens repr_container tokens token_id = Ok filtered ->
  exists ds, tokens = map VDict ds
             /\ filtered = filter_nfts repr_container ds token_id.
Proof.
  revert filtered. induction tokens as [ | token tokens IH ]; intros filtered H.
  - injection H as <-. now exists [].
  - destruct token as [ | | | | | d ]; try discriminate H.
    cbn [filter_tokens] in H. apply bind_Ok in H. destruct H as (rest & Hrest & H).
    injection H as <-. destruct (IH _ Hrest) as (ds & -> & ->).
    exists (d :: ds). split; reflexivity.
Qed.

Lemma filter_nfts_match (ds : list dict) (token_id : string) (d : dict) :
  In d (filter_nfts repr_container ds token_id) ->
  In d ds /\ py_str repr_container (default VNone (d !! "id")) = token_id.
Proof.
  unfold filter_nfts. intros H. apply List.filter_In in H.
  destruct H as [Hin Heq]. split; [ exact Hin | now apply String.eqb_eq ].
Qed.

(** X18: the token part of a collection report.  The tokens of the
    collection must all be dicts; the token reported is the first whose
    [str(id)] equals the requested id.  It is formatted with the request's
    creator and collection, verified exactly when its assessment is not
    high-risk, and tagged INCOMPLETE_METADATA exactly when the raw token has
    neither [uri] nor [description].  With no match the part says
    "Token ID not found in collection" and is not verified. *)
Theorem token_lookup_result (creator_address collection_name : string)
    (collection_data : dict) (tx_history : option (list dict))
    (token_id : string) (part : TokenPart) :
  token_lookup repr_container creator_address collection_name collection_data
    tx_history token_id = Ok part ->
  exists ds,
    py_iter (default (VList []) (collection_data !! "tokens")) = Ok (map VDict ds)
    /\ match filter_nfts repr_container ds token_id with
       | [] =>
           part = {| token_data := None;
                     token_verification :=
                       TokenNotFound false "Token ID not found in collection" |}
       | token :: _ =>
           py_str repr_container (default VNone (token !! "id")) = token_id
           /\ exists risk,
                _analyze_nft_risk
                  (format_token creator_address collection_name token)
                  tx_history = Ok risk
                /\ part = {| token_data :=
                               Some (format_token creator_address collection_name token);
                             token_verification :=
                               TokenVerified risk (negb (is_high_risk risk)) |}
                /\ (In "INCOMPLETE_METADATA" (risk_factors risk)
                    <-> token !! "uri" = None /\ token !! "description" = None)
       end.
Proof.
  unfold token_lookup. intros H.
  apply bind_Ok in H. destruct H as (tokens & Htokens & H).
  apply bind_Ok in H. destruct H as (filtered & Hfiltered & H).
  destruct (filter_tokens_Ok _ _ _ Hfiltered) as (ds & -> & ->).
  exists ds. split; [ exact Htokens | ].
  destruct (filter_nfts repr_container ds token_id) as [ | token rest ] eqn:Hfilter.
  - now injection H as <-.
  - apply bind_Ok in H. destruct H as (risk & Hrisk & H). injection H as <-.
    split.
    + apply (filter_nfts_match ds token_id token). rewrite Hfilter. now left.
    + exists risk. split; [ exact Hrisk | ]. split; [ reflexivity | ].
      rewrite (incomplete_tag_iff _ _ _ _ (format_token_metadata _ _ _) Hrisk).
      apply no_uri_no_description.
Qed.

End TokenLookup.

Lemma format_items_loop_Ok (items formatted : list value) :
  format_items_loop items = Ok formatted ->
  Forall2 (fun item f => format_item item = Ok f) items formatted.
Proof.
  revert formatted. induction items as [ | item items IH ]; intros formatted H.
  - injection H as <-. constructor.
  - cbn [format_items_loop] in H.
    apply bind_Ok in H. destruct H as (f & Hf & H).
    apply bind_Ok in H. destruct H as (rest & Hrest & H). injection H as <-.
    constructor; [ exact Hf | exact (IH _ Hrest) ].
Qed.

Lemma format_item_Ok (item f : value) :
  format_item item = Ok f ->
  exists d fd,
    item = VDict d /\ f = VDict fd
    /\ fd !! "name" = Some (default (VStr "Unnamed Item") (d !! "name"))
    /\ fd !! "id"
       = Some (default (default (VStr "N/A") (d !! "id")) (d !! "token_id"))
    /\ fd !! "owner" = Some (default (VStr "N/A") (d !! "owner"))
    /\ fd !! "metadata" = Some item.
Proof.
  destruct item as [ | | | | | d ]; try discriminate.
  intros H. injection H as <-. eexists d, _. repeat split; reflexivity.
Qed.

(** X19: reshaping the items of a collection touches the [items] key alone.
    When that key holds a list, its entries must all be dicts, and each is
    replaced, in place and in order, by a dict with [name], [id] ([token_id]
    preferred), [owner] and the original entry under [metadata]; otherwise
    the collection is left as it is. *)
Theorem format_items_contract (collection_data reshaped : dict) :
  format_items collection_data = Ok reshaped ->
  (forall k, k <> "items" -> reshaped !! k = collection_data !! k)
  /\ match collection_data !! "items" with
     | Some (VList items) =>
         exists formatted,
           reshaped !! "items" = Some (VList formatted)
           /\ Forall2 (fun item f =>
                 exists d fd,
                   item = VDict d /\ f = VDict fd
                   /\ fd !! "name" = Some (default (VStr "Unnamed Item") (d !! "name"))
                   /\ fd !! "id"
                      = Some (default (default (VStr "N/A") (d !! "id"))
                                (d !! "token_id"))
                   /\ fd !! "owner" = Some (default (VStr "N/A") (d !! "owner"))
                   /\ fd !! "metadata" = Some item) items formatted
     | _ => reshaped = collection_data
     end.
Proof.
  unfold format_items. intros H.
  destruct (collection_data !! "items") as [ [ | | | | items | ] | ] eqn:Hitems;
    try (injection H as <-; split; [ reflexivity | reflexivity ]).
  apply bind_Ok in H. destruct H as (formatted & Hloop & H). injection H as <-.
  split.
  - intros k Hk. apply lookup_insert_ne. congruence.
  - exists formatted. split; [ apply lookup_insert_eq | ].
    eapply Forall2_impl; [ exact (format_items_loop_Ok _ _ Hloop) | ].
    intros item f Hf. exact (format_item_Ok _ _ Hf).
Qed.

Lemma format_items_other_keys (collection_data reshaped : dict) (k : string) :
  format_items collection_data = Ok reshaped ->
  k <> "items" -> reshaped !! k = collection_data !! k.
Proof.
  unfold format_items. intros H Hk.
  destruct (collection_data !! "items") as [ [ | | | | items | ] | ];
    try (injection H as <-; reflexivity).
  apply bind_Ok in H. destruct H as (formatted & _ & H). injection H as <-.
  apply lookup_insert_ne. congruence.
Qed.

Section CollectionPath.

Context {DT : DateTimeLib}.
Variable clock : nat -> datetime.
Variable repr_container : value -> string.
Variable get_collection_data : string -> string -> option dict.

(** Scoring reads [supply], [description] and [uri] alone, so the
    reshaping does not change it. *)
Lemma verify_collection_reshaped (collection_data reshaped : dict)
    (tx_history : option (list dict)) (t : nat) :
  format_items collection_data = Ok reshaped ->
  _verify_collection clock reshaped tx_history t
  = _verify_collection clock collection_data tx_history t.
Proof.
  intros H. unfold _verify_collection, supply_check, metadata_check.
  rewrite !(format_items_other_keys _ _ _ H) by discriminate. reflexivity.
Qed.

(** X20: when the collection fetch is absent, or answers an empty dict,
    [get_nft_data_by_collection] answers "Collection not found" without
    reading the clock, whatever the token id and the registry, and the
    route [/verify/collection] answers 404. *)
Theorem collection_absent_not_found (self : NFTVerifier)
    (creator_address collection_name : string) (token_id : option string)
    (t : nat) :
  get_collection_data creator_address collection_name = None
  \/ get_collection_data creator_address collection_name = Some ∅ ->
  get_nft_data_by_collection clock repr_container get_collection_data self
    creator_address collection_name token_id t
  = Ok (CollectionNotFound VNone false "Collection not found", t)
  /\ verify_by_collection clock repr_container get_collection_data self
       creator_address collection_name token_id t
     = HttpError 404 "Collection not found".
Proof.
  intros Habsent.
  assert (Hrun : get_nft_data_by_collection clock repr_container
                   get_collection_data self creator_address collection_name
                   token_id t
                 = Ok (CollectionNotFound VNone false "Collection not found", t)).
  { unfold get_nft_data_by_collection. destruct Habsent as [-> | ->]; reflexivity. }
  split; [ exact Hrun | ]. unfold verify_by_collection. now rewrite Hrun.
Qed.

(** X21: a report for a collection that was found carries the request's
    creator and collection name, the reshaped collection, the scammer flag
    as registry membership of the creator, and the score of the collection as
    fetched (the reshaping does not change it) against the creator's
    history; it has a token part exactly when a non-empty token id was
    given, and the route [/verify/collection] answers it with status 200. *)
Theorem collection_found_report (self : NFTVerifier)
    (creator_address collection_name : string) (token_id : option string)
    (t t' : nat) (c n : string) (reshaped : dict) (flag : bool)
    (verification : CollectionVerification) (token : option TokenPart) :
  get_nft_data_by_collection clock repr_container get_collection_data self
    creator_address collection_name token_id t
  = Ok (CollectionFound c n reshaped flag verification token, t') ->
  exists fetched,
    get_collection_data creator_address collection_name = Some fetched
    /\ fetched <> ∅
    /\ format_items fetched = Ok reshaped
    /\ c = creator_address /\ n = collection_name
    /\ flag = bool_decide (creator_address ∈ known_scammers self)
    /\ _verify_collection clock fetched
         (get_account_transactions (aptos_api self) creator_address) t
       = Ok (verification, t')
    /\ (is_Some token <-> given token_id = true)
    /\ verify_by_collection clock repr_container get_collection_data self
         creator_address collection_name token_id t
       = Http200 (CollectionFound c n reshaped flag verification token).
Proof.
  intros H. pose proof H as Hrun. unfold get_nft_data_by_collection in H.
  destruct (get_collection_data creator_address collection_name) as [fetched | ];
    [ | discriminate H ].
  destruct (truthy (VDict fetched)) eqn:Htruthy; [ | discriminate H ].
  apply bind_Ok in H. destruct H as (reshaped' & Hreshape & H).
  apply bind_Ok in H. destruct H as ([v t1] & Hverify & H).
  apply bind_Ok in H. destruct H as (token' & Htoken & H).
  injection H as <- <- <- <- <- <- <-.
  rewrite (verify_collection_reshaped _ _ _ _ Hreshape) in Hverify.
  exists fetched. split; [ reflexivity | ].
  split; [ intros ->; discriminate Htruthy | ].
  repeat (split; [ first [ reflexivity | assumption ] | ]).
  split.
  - destruct (given token_id).
    + apply bind_Ok in Htoken. destruct Htoken as (part & _ & Hpart).
      injection Hpart as <-. split; eauto.
    + injection Htoken as <-. split; [ intros [? ?]; discriminate | discriminate ].
  - unfold verify_by_collection. rewrite Hrun. cbn [report_collection_data].
    assert (Hnonempty : truthy (VDict reshaped') = true).
    { unfold format_items in Hreshape.
      destruct (fetched !! "items") as [ [ | | | | items | ] | ];
        try (injection Hreshape as <-; exact Htruthy).
      apply bind_Ok in Hreshape. destruct Hreshape as (formatted & _ & Hr).
      injection Hr as <-. cbn [truthy].
      destruct (map_to_list (<["items":=VList formatted]> fetched)) eqn:Hl;
        [ | reflexivity ].
      apply map_to_list_empty_iff in Hl.
      now apply insert_non_empty in Hl. }
    now rewrite Hnonempty.
Qed.

End CollectionPath.

(** ** The routes *)

Lemma filter_token_none (resources : list dict) :
  existsb is_token_resource resources = false ->
  List.filter is_token_resource resources = [].
Proof.
  induction resources as [ | r rs IH ]; [ reflexivity | ].
  cbn [existsb List.filter]. intros H. apply orb_false_iff in H.
  destruct H as [-> Hrs]. now apply IH.
Qed.

Lemma filter_token_some (resources : list dict) :
  existsb is_token_resource resources = true ->
  List.filter is_token_resource resources <> [].
Proof.
  induction resources as [ | r rs IH ]; [ discriminate | ].
  cbn [existsb List.filter]. destruct (is_token_resource r); [ discriminate | ].
  exact IH.
Qed.

Section RouteFacts.

Context {DT : DateTimeLib}.
Variable clock : nat -> datetime.
Variable repr_container : value -> string.
Variable get_collection_data : string -> string -> option dict.

(** X22: the statuses of [/verify/owner].  An absent or empty resource list
    gives 404.  On well-formed data the answer is 200 with the account
    report when some resource is token-typed, and 404 when none is, even if
    the account holds coins.  When the resources are well formed and the
    transaction fetch fails, the answer is 500. *)
Theorem owner_route_statuses (self : NFTVerifier) (owner : string) (t : nat) :
  (get_account_resources (aptos_api self) owner = None
   \/ get_account_resources (aptos_api self) owner = Some [] ->
   verify_by_owner clock self owner t
   = HttpError 404 "No NFTs found for this owner")
  /\ (forall resource resources txs,
         get_account_resources (aptos_api self) owner
         = Some (resource :: resources) ->
         Forall wf_resource (resource :: resources) ->
         get_account_transactions (aptos_api self) owner = Some txs ->
         Forall wf_tx txs ->
         if existsb is_token_resource (resource :: resources)
         then exists report,
                verify_by_owner clock self owner t = Http200 report
                /\ report_nfts report <> []
                /\ report_is_scammer report
                   = Some (bool_decide (owner ∈ known_scammers self))
         else verify_by_owner clock self owner t
              = HttpError 404 "No NFTs found for this owner")
  /\ (forall resource resources,
         get_account_resources (aptos_api self) owner
         = Some (resource :: resources) ->
         Forall wf_resource (resource :: resources) ->
         get_account_transactions (aptos_api self) owner = None ->
         verify_by_owner clock self owner t
         = HttpError 500 "Internal Server Error").
Proof.
  split; [ | split ].
  - intros Habsent. unfold verify_by_owner, get_nft_data_by_owner.
    destruct Habsent as [-> | ->]; reflexivity.
  - intros resource resources txs Hres Hwf Htxs Hwftx.
    destruct (owner_path_run clock self owner t _ _ _ Hres Hwf Htxs Hwftx)
      as (report & nfts & Hrun & Hnfts & Hflag & Hlen).
    unfold verify_by_owner. rewrite Hrun, Hnfts.
    destruct (existsb is_token_resource (resource :: resources)) eqn:Hany.
    + pose proof (filter_token_some _ Hany) as Hne.
      destruct nfts as [ | nft nfts ].
      * destruct (List.filter is_token_resource (resource :: resources));
          [ now destruct Hne | discriminate Hlen ].
      * exists report. split; [ reflexivity | ].
        split; [ rewrite Hnfts; discriminate | exact Hflag ].
    + rewrite (filter_token_none _ Hany) in Hlen.
      destruct nfts; [ reflexivity | discriminate Hlen ].
  - intros resource resources Hres Hwf Htxs. unfold verify_by_owner.
    now rewrite (owner_path_without_history clock self owner t _ _ Hres Hwf Htxs).
Qed.

(** X23: the dispatch of [/verify/nft].  A non-empty owner address selects
    the owner path whatever the creator and the collection are, and the route
    then answers 200 or 500 only.  Without it, a non-empty creator together
    with a non-empty collection name selects the collection path, on which
    the token id is ignored and a collection that is not found is still
    answered with status 200.  Any other combination is answered 400. *)
Theorem single_nft_dispatch (self : NFTVerifier)
    (owner_address creator_address collection_name token_id : option string)
    (t : nat) :
  (given owner_address = true ->
   verify_single_nft clock repr_container get_collection_data self
     owner_address creator_address collection_name token_id t
   = verify_single_nft clock repr_container get_collection_data self
       owner_address None None token_id t
   /\ forall status detail,
        verify_single_nft clock repr_container get_collection_data self
          owner_address creator_address collection_name token_id t
        = HttpError status detail ->
        status = 500)
  /\ (given owner_address = false ->
      given creator_address && given collection_name = true ->
      verify_single_nft clock repr_container get_collection_data self
        owner_address creator_address collection_name token_id t
      = verify_single_nft clock repr_container get_collection_data self
          None creator_address collection_name None t
      /\ (get_collection_data (default EmptyString creator_address)
            (default EmptyString collection_name) = None ->
          verify_single_nft clock repr_container get_collection_data self
            owner_address creator_address collection_name token_id t
          = Http200 (ByCollection
                       (CollectionNotFound VNone false "Collection not found"))))
  /\ (given owner_address = false ->
      given creator_address && given collection_name = false ->
      verify_single_nft clock repr_container get_collection_data self
        owner_address creator_address collection_name token_id t
      = HttpError 400
          "Insufficient parameters. Provide either owner_address or (creator_address AND collection_name)").
Proof.
  unfold verify_single_nft. split; [ | split ].
  - intros ->. split; [ reflexivity | ].
    intros status detail H.
    destruct (get_nft_data_by_owner clock self (default EmptyString owner_address) t)
      as [[r t'] | e]; [ discriminate H | now injection H as <- _ ].
  - intros -> ->. cbn [given]. split; [ reflexivity | ].
    intros Habsent. unfold get_nft_data_by_collection. now rewrite Habsent.
  - intros -> ->. reflexivity.
Qed.

(** X24: filtering by token id on [/verify/nft].  With a non-empty owner
    address and token id, the body is the owner report with its NFT list
    narrowed to the NFTs whose [str(id)] equals the token id; the
    verification results and the scammer flag are those computed over all
    the NFTs of the owner. *)
Theorem owner_route_token_filter (self : NFTVerifier)
    (owner_address creator_address collection_name token_id : option string)
    (t t' : nat) (report : OwnerReport) :
  given owner_address = true ->
  given token_id = true ->
  get_nft_data_by_owner clock self (default EmptyString owner_address) t
  = Ok (report, t') ->
  exists narrowed,
    verify_single_nft clock repr_container get_collection_data self
      owner_address creator_address collection_name token_id t
    = Http200 (ByOwner narrowed)
    /\ report_nfts narrowed
       = filter_nfts repr_container (report_nfts report)
           (default EmptyString token_id)
    /\ Forall (fun nft =>
                 In nft (report_nfts report)
                 /\ py_str repr_container (default VNone (nft !! "id"))
                    = default EmptyString token_id) (report_nfts narrowed)
    /\ report_verification narrowed = report_verification report
    /\ report_is_scammer narrowed = report_is_scammer report.
Proof.
  intros Howner Htoken Hrun. unfold verify_single_nft.
  rewrite Howner, Hrun, Htoken. cbn [andb].
  assert (Hall : forall l,
            Forall (fun nft => In nft l
                               /\ py_str repr_container (default VNone (nft !! "id"))
                                  = default EmptyString token_id)
              (filter_nfts repr_container l (default EmptyString token_id))).
  { intros l. apply List.Forall_forall. intros nft Hin.
    exact (filter_nfts_match repr_container l _ nft Hin). }
  destruct report as [ nfts verified reason | owner nfts balances activities flag verification ];
    cbn [report_nfts]; (destruct nfts as [ | nft nfts ]; cbn [truthy map]);
    eexists; (split; [ reflexivity | ]); cbn [report_nfts set_report_nfts];
    repeat split; try reflexivity; try apply Hall; constructor.
Qed.

End RouteFacts.

(** ** Instances of the properties above on the sample data *)

Lemma sample_resources_wf : Forall wf_resource [token_store; coin_store].
Proof. repeat constructor; eexists; vm_compute; reflexivity. Qed.

Lemma staking_history_wf : Forall wf_tx staking_history.
Proof.
  repeat constructor.
  - eexists. vm_compute. reflexivity.
  - eexists. split; [ vm_compute; reflexivity | ].
    repeat constructor; eexists; (split; [ reflexivity | ]);
      eexists; vm_compute; reflexivity.
Qed.

Lemma five_transfers_typed : typed_history five_transfers.
Proof. repeat constructor; eexists; vm_compute; reflexivity. Qed.

Lemma token_name_fixed_points_witness :
  _extract_token_name "AptosCoin" = "AptosCoin"
  /\ _extract_token_name (_extract_token_name "0x1::a::B")
     = _extract_token_name "0x1::a::B".
Proof.
  split.
  - apply (proj2 (proj1 (token_name_fixed_points "AptosCoin"))). reflexivity.
  - exact (proj2 (token_name_fixed_points "0x1::a::B")).
Defined.

Lemma parse_activities_closed_form_witness :
  _parse_account_activities (Some staking_history)
  = Ok (activity_summary staking_history).
Proof.
  exact (proj1 (parse_activities_closed_form staking_history eq_refl)
           staking_history_wf).
Defined.

Lemma activity_summary_bounds_witness :
  exists activities,
    _parse_account_activities (Some staking_history) = Ok activities
    /\ length (recent_transactions activities) = 1%nat
    /\ 0 <= swap_count (token_swaps activities) <= 1.
Proof.
  eexists. split; [ exact activities_ex | ].
  destruct (activity_summary_bounds staking_history _ activities_ex)
    as (Hlen & _ & Hswap & _).
  split; [ exact Hlen | exact Hswap ].
Defined.

Lemma risk_ignores_nft_identity_witness :
  _analyze_nft_risk plain_nft (Some seven_transfers)
  = _analyze_nft_risk other_nft (Some seven_transfers).
Proof.
  apply (risk_ignores_nft_identity plain_nft other_nft (Some seven_transfers)).
  reflexivity.
Defined.

Lemma nft_high_risk_thresholds_witness :
  exists r,
    _analyze_nft_risk nameless_nft (Some five_transfers) = Ok r
    /\ is_high_risk r = true.
Proof.
  assert (Hrun : _analyze_nft_risk nameless_nft (Some five_transfers)
                 = Ok {| risk_score := 80;
                         risk_factors := ["INCOMPLETE_METADATA"; "HIGH_TRANSFER_VELOCITY"];
                         is_high_risk := true |})
    by (vm_compute; reflexivity).
  eexists. split; [ exact Hrun | ].
  destruct (nft_high_risk_thresholds _ _ _ Hrun) as (complete & Hmeta & Hhigh & _).
  apply Hhigh. vm_compute in Hmeta. injection Hmeta as <-.
  vm_compute. discriminate.
Defined.

Lemma verify_nfts_shape_witness :
  exists r,
    _verify_nfts sample_clock [plain_nft; nameless_nft] (Some five_transfers) 0
    = Ok (r, 1%nat)
    /\ length (questionable_nfts r) = 1%nat.
Proof.
  assert (Hall : Forall2
            (fun nft a => _analyze_nft_risk nft (Some five_transfers) = Ok a)
            [plain_nft; nameless_nft]
            [ {| risk_score := 40;
                 risk_factors := ["HIGH_TRANSFER_VELOCITY"];
                 is_high_risk := false |};
              {| risk_score := 80;
                 risk_factors := ["INCOMPLETE_METADATA"; "HIGH_TRANSFER_VELOCITY"];
                 is_high_risk := true |} ])
    by (repeat constructor; vm_compute; reflexivity).
  destruct (proj2 (verify_nfts_shape sample_clock [plain_nft; nameless_nft]
                     (Some five_transfers) 0%nat) _ Hall) as (r & Hrun & Hq).
  exists r. split; [ exact Hrun | ]. rewrite Hq. reflexivity.
Defined.

Lemma no_history_always_verified_witness :
  exists r t',
    _verify_nfts sample_clock [nameless_nft] None 0 = Ok (r, t')
    /\ is_verified r = true.
Proof.
  assert (Hrun : exists r, _verify_nfts sample_clock [nameless_nft] None 0
                           = Ok (r, 1%nat))
    by (eexists; vm_compute; reflexivity).
  destruct Hrun as [r Hrun]. exists r, 1%nat. split; [ exact Hrun | ].
  exact (proj2 (no_history_always_verified sample_clock _ _ _ _ _
                  (or_introl eq_refl) Hrun)).
Defined.

Lemma collection_high_risk_iff_witness :
  exists r t',
    _verify_collection sample_clock unsupplied_collection (Some recent_history) 0
    = Ok (r, t')
    /\ cv_risk_score r <= 105
    /\ cv_is_high_risk r = true.
Proof.
  eexists _, _. split; [ exact young_creator_ex | ].
  destruct (collection_high_risk_iff sample_clock _ _ _ _ _ young_creator_ex)
    as ([_ Hle] & _ & Hhigh).
  split; [ exact Hle | ]. apply Hhigh. left.
  split; [ right; now left | left; now left ].
Defined.

Lemma oldest_transaction_is_least_witness :
  exists oldest so,
    oldest_transaction sample_clock (tx_at "a" "2026-01-01T00:00:00")
      [tx_at "c" "2025-12-31T23:59:59"] 0 = Ok (oldest, 2%nat)
    /\ stamp_of oldest = Some so
    /\ String.leb so "2026-01-01T00:00:00" = true.
Proof.
  assert (Hstamped : stamped_history two_stamps)
    by (repeat constructor; eexists; reflexivity).
  destruct (oldest_transaction_is_least sample_clock _ _ 0%nat Hstamped)
    as (oldest & so & Hrun & _ & Hso & Hall).
  exists oldest, so. split; [ exact Hrun | ]. split; [ exact Hso | ].
  inversion Hall as [ | ? ? (s & Hs & Hle) _ ]; subst.
  vm_compute in Hs. injection Hs as <-. exact Hle.
Defined.

Lemma unusable_timestamp_raises_witness :
  _verify_collection sample_clock empty_collection
    (Some [tx_of_type "user_transaction"]) 0
  = Raise TypeError.
Proof.
  apply (unusable_timestamp_raises sample_clock empty_collection
           (tx_of_type "user_transaction") [] 0 1 (tx_of_type "user_transaction"));
    reflexivity.
Defined.

Lemma sample_nfts_parsed :
  exists nfts, parse_nfts [token_store; coin_store] = Ok nfts.
Proof. eexists. vm_compute. reflexivity. Qed.


Lemma parse_nfts_keeps_token_resources_witness :
  exists nfts, parse_nfts [coin_store] = Ok nfts /\ nfts = [].
Proof.
  assert (Hwf : Forall wf_resource [coin_store])
    by (repeat constructor; eexists; vm_compute; reflexivity).
  destruct (parse_nfts_keeps_token_resources [coin_store] Hwf)
    as (nfts & Hrun & _ & Hnone).
  exists nfts. split; [ exact Hrun | ]. apply Hnone. reflexivity.
Defined.

Lemma parsed_nft_metadata_verdict_witness :
  exists nfts,
    parse_nfts [token_store; coin_store] = Ok nfts
    /\ Forall (fun nft => exists r, _analyze_nft_risk nft (Some five_transfers) = Ok r)
         nfts.
Proof.
  destruct sample_nfts_parsed as [nfts Hrun]. exists nfts.
  split; [ exact Hrun | ].
  eapply List.Forall_impl;
    [ | exact (parsed_nft_metadata_verdict _ _ _ Hrun five_transfers_typed) ].
  intros nft (_ & r & Hr & _). now exists r.
Defined.

Lemma parsed_balance_contract_witness :
  exists balances,
    parse_balances [token_store; coin_store] = Ok balances
    /\ Forall (fun b => exists ty, tb_resource_type b = VStr ty
                                   /\ tb_name b = _extract_token_name ty) balances.
Proof.
  assert (Hrun : exists balances,
            parse_balances [token_store; coin_store] = Ok balances)
    by (eexists; vm_compute; reflexivity).
  destruct Hrun as [balances Hrun]. exists balances. split; [ exact Hrun | ].
  eapply List.Forall_impl;
    [ | exact (parsed_balance_contract [token_store; coin_store] balances
                 eq_refl Hrun) ].
  intros b (resource & ty & raw_data & _ & _ & _ & _ & Hname & Hty & _).
  exists ty. split; assumption.
Defined.


Lemma owner_path_answers_witness :
  exists report,
    get_nft_data_by_owner sample_clock ape_owner "0xbad" 0 = Ok (report, 1%nat)
    /\ report_is_scammer report = Some true.
Proof.
  destruct (owner_path_answers sample_clock ape_owner "0xbad" 0%nat
              token_store [coin_store] staking_history
              eq_refl sample_resources_wf eq_refl eq_refl staking_history_wf eq_refl)
    as (nfts & balances & verification & Hrun & _).
  eexists. split; [ exact Hrun | ]. reflexivity.
Defined.

Lemma token_lookup_result_witness :
  exists part ds,
    token_lookup sample_repr "0xc" "Apes" ape_collection (Some five_transfers) "7"
    = Ok part
    /\ py_iter (default (VList []) (ape_collection !! "tokens")) = Ok (map VDict ds).
Proof.
  assert (Hrun : exists part,
            token_lookup sample_repr "0xc" "Apes" ape_collection
              (Some five_transfers) "7" = Ok part)
    by (eexists; vm_compute; reflexivity).
  destruct Hrun as [part Hrun].
  destruct (token_lookup_result sample_repr _ _ _ _ _ _ Hrun) as (ds & Hiter & _).
  exists part, ds. split; assumption.
Defined.

Lemma format_items_contract_witness :
  exists reshaped,
    format_items ape_collection = Ok reshaped
    /\ reshaped !! "supply" = ape_collection !! "supply".
Proof.
  assert (Hrun : exists reshaped, format_items ape_collection = Ok reshaped)
    by (eexists; vm_compute; reflexivity).
  destruct Hrun as [reshaped Hrun]. exists reshaped. split; [ exact Hrun | ].
  apply (proj1 (format_items_contract _ _ Hrun)). discriminate.
Defined.

Lemma collection_absent_not_found_witness :
  verify_by_collection sample_clock sample_repr (fixed_collection None)
    (verifier_with (fixed_api None None)) "0xbad" "Apes" (Some "7") 0
  = HttpError 404 "Collection not found".
Proof.
  exact (proj2 (collection_absent_not_found sample_clock sample_repr
                  (fixed_collection None) (verifier_with (fixed_api None None))
                  "0xbad" "Apes" (Some "7") 0%nat (or_introl eq_refl))).
Defined.

Lemma collection_found_report_witness :
  exists report,
    verify_by_collection sample_clock sample_repr
      (fixed_collection (Some ape_collection))
      (verifier_with (fixed_api None (Some recent_history))) "0xbad" "Apes"
      (Some "7") 0
    = Http200 report.
Proof.
  assert (Hrun : exists c n reshaped flag verification token t',
            get_nft_data_by_collection sample_clock sample_repr
              (fixed_collection (Some ape_collection))
              (verifier_with (fixed_api None (Some recent_history)))
              "0xbad" "Apes" (Some "7") 0
            = Ok (CollectionFound c n reshaped flag verification token, t'))
    by (eexists _, _, _, _, _, _, _; vm_compute; reflexivity).
  destruct Hrun as (c & n & reshaped & flag & verification & token & t' & Hrun).
  destruct (collection_found_report sample_clock sample_repr _ _ _ _ _ _ _ _ _ _ _ _ _ Hrun)
    as (fetched & _ & _ & _ & _ & _ & _ & _ & _ & Hroute).
  eexists. exact Hroute.
Defined.

Lemma owner_route_statuses_witness :
  (exists report, verify_by_owner sample_clock ape_owner "0xbad" 0 = Http200 report)
  /\ verify_by_owner sample_clock
       (verifier_with (fixed_api (Some [token_store; coin_store]) None)) "0xbad" 0
     = HttpError 500 "Internal Server Error".
Proof.
  split.
  - destruct (proj1 (proj2 (owner_route_statuses sample_clock ape_owner "0xbad" 0%nat))
                token_store [coin_store] staking_history
                eq_refl sample_resources_wf eq_refl staking_history_wf)
      as (report & Hrun & _).
    now exists report.
  - exact (proj2 (proj2 (owner_route_statuses sample_clock
                           (verifier_with (fixed_api (Some [token_store; coin_store]) None))
                           "0xbad" 0%nat))
             token_store [coin_store] eq_refl sample_resources_wf eq_refl).
Defined.

Lemma single_nft_dispatch_witness :
  verify_single_nft sample_clock sample_repr (fixed_collection None) ape_owner
    None (Some "0xc") None (Some "7") 0
  = HttpError 400
      "Insufficient parameters. Provide either owner_address or (creator_address AND collection_name)"
  /\ verify_single_nft sample_clock sample_repr (fixed_collection None) ape_owner
       None (Some "0xc") (Some "Apes") (Some "7") 0
     = Http200 (ByCollection (CollectionNotFound VNone false "Collection not found")).
Proof.
  split.
  - exact (proj2 (proj2 (single_nft_dispatch sample_clock sample_repr
                           (fixed_collection None) ape_owner
                           None (Some "0xc") None (Some "7") 0%nat))
             eq_refl eq_refl).
  - exact (proj2 (proj1 (proj2 (single_nft_dispatch sample_clock sample_repr
                                  (fixed_collection None) ape_owner
                                  None (Some "0xc") (Some "Apes") (Some "7") 0%nat))
                    eq_refl eq_refl) eq_refl).
Defined.

Lemma owner_route_token_filter_witness :
  exists narrowed,
    verify_single_nft sample_clock sample_repr (fixed_collection None) ape_owner
      (Some "0xbad") None None (Some "7") 0
    = Http200 (ByOwner narrowed)
    /\ length (report_nfts narrowed) = 1%nat
    /\ report_is_scammer narrowed = Some true.
Proof.
  assert (Hrun : exists report,
            get_nft_data_by_owner sample_clock ape_owner "0xbad" 0
            = Ok (report, 1%nat)
            /\ length (filter_nfts sample_repr (report_nfts report) "7") = 1%nat
            /\ report_is_scammer report = Some true)
    by (eexists; split; [ vm_compute; reflexivity | split; vm_compute; reflexivity ]).
  destruct Hrun as (report & Hrun & Hlen & Hflag).
  destruct (owner_route_token_filter sample_clock sample_repr (fixed_collection None)
              ape_owner (Some "0xbad") None None (Some "7") 0%nat 1%nat report
              eq_refl eq_refl Hrun)
    as (narrowed & Hroute & Hnfts & _ & _ & Hscam).
  exists narrowed. split; [ exact Hroute | ].
  split; [ now rewrite Hnfts | now rewrite Hscam ].
Defined.

(** ** Further examples of the collection path *)

(** [str] of an id: a token without an id is found under "None", and the
    id reported for a token is its [token_id] even when it was found by its
    [id]. *)
Example token_id_examples :
  py_str sample_repr (VInt (-5)) = "-5"
  /\ py_str sample_repr (VBool true) = "True"
  /\ filter_tokens sample_repr [VDict (mk_dict [("name", VStr "no id")])] "None"
     = Ok [mk_dict [("name", VStr "no id")]]
  /\ (part <- token_lookup sample_repr "0xc" "Apes" ape_collection None "9" ;;
      Ok (match token_data part with
          | Some formatted => formatted !! "id"
          | None => None
          end)) = Ok (Some (VStr "x9"))
  /\ (part <- token_lookup sample_repr "0xc" "Apes" ape_collection None "8" ;;
      Ok (token_verification part))
     = Ok (TokenNotFound false "Token ID not found in collection").
Proof. repeat split; vm_compute; reflexivity. Qed.

(** A collection whose [items] hold an entry that is not a dict cannot be
    reshaped, and the route answers 500. *)
Example bad_item_example :
  verify_by_collection sample_clock sample_repr
    (fixed_collection (Some (mk_dict [("name", VStr "Apes");
                                      ("items", VList [VStr "Ape #1"])])))
    (verifier_with (fixed_api None None)) "0xc" "Apes" None 0
  = HttpError 500 "Internal Server Error".
Proof. vm_compute. reflexivity. Qed.
